(** * Career Pathfinder API: the RIASEC scoring backend (src/main.py)

    A shallow embedding of the two request handlers that carry logic,
    [get_questions] and [assess], together with the three constant tables
    they read, followed by the properties of the handlers.

    Modelling conventions.
    - Python [int] is [Z]; Python [str] is [string].
    - A Python [dict] is an insertion-ordered association list ([PyDict]):
      [sorted(scores.items(), ...)] observes the iteration order of [scores],
      so the order is part of the model.
    - The dict literals of [QUESTIONS] all have the same five keys and are
      only read through constant subscripts; they are records.
    - A raised exception is the [Raise] outcome of the [Py] monad.
    - [create_document] comes from the [database] module, which is a
      collaborator of this file: it is a variable of the section that holds
      [assess], a function of the document store. *)

From Stdlib Require Import ZArith List String Ascii Bool Lia Permutation.
From Stdlib Require Import DecimalString.
Import ListNotations.
Open Scope string_scope.
Open Scope Z_scope.

(** ** Exceptions and the error monad *)

(** The instances of Python's [Exception] class that the handlers meet.
    [HTTPException] is FastAPI's; [KeyError] and [IndexError] are what a
    failed subscript raises; [Exception_] stands for any other instance
    (what the store client raises when the store is down). *)
Inductive PyException : Type :=
| HTTPException (status_code : Z) (detail : string)
| KeyError (key : string)
| IndexError
| Exception_ (message : string).

Inductive Py (T : Type) : Type :=
| Return (v : T)
| Raise (e : PyException).
Arguments Return {T} v.
Arguments Raise {T} e.

Definition bind {T U : Type} (c : Py T) (k : T -> Py U) : Py U :=
  match c with
  | Return v => k v
  | Raise e => Raise e
  end.

Notation "x <- c ;; k" := (bind c (fun x => k))
  (at level 61, c at next level, right associativity).

(** ** Python dictionaries, in insertion order *)

Class PyKey (K : Type) : Type := {
  key_eqb : K -> K -> bool;
  key_eqb_eq : forall x y, key_eqb x y = true <-> x = y
}.

#[export] Instance PyKey_str : PyKey string :=
  {| key_eqb := String.eqb; key_eqb_eq := String.eqb_eq |}.

#[export] Instance PyKey_int : PyKey Z :=
  {| key_eqb := Z.eqb; key_eqb_eq := Z.eqb_eq |}.

Module PyDict.
Section Ops.
Context {K V : Type} `{PyKey K}.

Definition t : Type := list (K * V).

(** [d.get(k)]: [None] when the key is absent. *)
Fixpoint get (k : K) (d : t) : option V :=
  match d with
  | [] => None
  | (k', v) :: rest => if key_eqb k k' then Some v else get k rest
  end.

(** [d.get(k, default)]. *)
Definition get_default (k : K) (default : V) (d : t) : V :=
  match get k d with
  | Some v => v
  | None => default
  end.

(** [d[k] = v]: an existing key keeps its position, a new key goes last. *)
Fixpoint setitem (k : K) (v : V) (d : t) : t :=
  match d with
  | [] => [(k, v)]
  | (k', v') :: rest =>
      if key_eqb k k' then (k', v) :: rest else (k', v') :: setitem k v rest
  end.

(** [d.items()], [d.keys()] and [d.values()], in insertion order. *)
Definition items (d : t) : list (K * V) := d.
Definition keys (d : t) : list K := map fst d.
Definition values (d : t) : list V := map snd d.

(** [{key(x): val(x) for x in xs}]: a later binding of a key wins. *)
Definition comprehension {X : Type} (key : X -> K) (val : X -> V)
    (xs : list X) : t :=
  fold_left (fun d x => setitem (key x) (val x) d) xs [].
End Ops.
Arguments t : clear implicits.
End PyDict.

(** [d[k]] on a dictionary with string keys: [KeyError] when absent. *)
Definition getitem {V : Type} (k : string) (d : PyDict.t string V) : Py V :=
  match PyDict.get k d with
  | Some v => Return v
  | None => Raise (KeyError k)
  end.

(** [d[k] += n]: read [d[k]], then store the sum under the same key. *)
Definition iadd (k : string) (n : Z) (d : PyDict.t string Z)
    : Py (PyDict.t string Z) :=
  v <- getitem k d ;;
  Return (PyDict.setitem k (v + n) d).

(** ** Strings *)

(** [str(n)] for an [int]. *)
Definition str (n : Z) : string := NilEmpty.string_of_int (Z.to_int n).

(** [sep.join(parts)]. *)
Fixpoint join (sep : string) (parts : list string) : string :=
  match parts with
  | [] => ""
  | [s] => s
  | s :: rest => s ++ sep ++ join sep rest
  end.

(** [x in xs] for strings. *)
Definition contains (x : string) (xs : list string) : bool :=
  existsb (String.eqb x) xs.

(** ** Data model *)

(** [class Answer(BaseModel)]. *)
Record Answer : Type := mkAnswer {
  question_id : Z;
  choice : string
}.

(** [class AssessmentRequest(BaseModel)]. *)
Record AssessmentRequest : Type := mkAssessmentRequest {
  name : option string;
  email : option string;
  answers : list Answer
}.

(** An entry of [QUESTIONS]; the fields are the keys "id", "text", "A",
    "B" and "type" of the dict literal. *)
Record Question : Type := mkQuestion {
  q_id : Z;
  q_text : string;
  q_A : string;
  q_B : string;
  q_type : string
}.

Definition QUESTIONS : list Question := [
  mkQuestion 1 "I enjoy building or fixing things with my hands." "Agree" "Disagree" "R";
  mkQuestion 2 "I like working with tools or machines." "Agree" "Disagree" "R";
  mkQuestion 3 "I enjoy solving math or science problems." "Agree" "Disagree" "I";
  mkQuestion 4 "I like analyzing data and figuring out how things work." "Agree" "Disagree" "I";
  mkQuestion 5 "I like to create art, music, or write." "Agree" "Disagree" "A";
  mkQuestion 6 "I prefer unstructured tasks where I can be original." "Agree" "Disagree" "A";
  mkQuestion 7 "I enjoy helping people and improving their lives." "Agree" "Disagree" "S";
  mkQuestion 8 "I like teaching, counseling, or caring roles." "Agree" "Disagree" "S";
  mkQuestion 9 "I like leading projects and persuading others." "Agree" "Disagree" "E";
  mkQuestion 10 "I enjoy business, sales, or entrepreneurship." "Agree" "Disagree" "E";
  mkQuestion 11 "I prefer organizing information and keeping things orderly." "Agree" "Disagree" "C";
  mkQuestion 12 "I enjoy working with data, records, and details." "Agree" "Disagree" "C"
].

Definition CAREER_MAP : PyDict.t string (list string) := [
  ("R", ["Mechanical Engineer"; "Electrician"; "Carpenter"; "Automotive Technician"]);
  ("I", ["Data Scientist"; "Research Analyst"; "Software Developer"; "Biologist"]);
  ("A", ["Graphic Designer"; "Writer"; "Musician"; "UX Designer"]);
  ("S", ["Teacher"; "Nurse"; "Social Worker"; "Therapist"]);
  ("E", ["Marketing Manager"; "Sales Representative"; "Entrepreneur"; "Product Manager"]);
  ("C", ["Accountant"; "Operations Coordinator"; "Data Entry Specialist"; "Admin Assistant"])
].

Definition SUMMARY_BLURBS : PyDict.t string string := [
  ("R", "Hands-on, practical, and mechanical. You enjoy building, fixing, and working with tools.");
  ("I", "Analytical and curious. You enjoy research, problem-solving, and understanding how things work.");
  ("A", "Creative and expressive. You value originality and enjoy artistic or design-focused tasks.");
  ("S", "Supportive and people-oriented. You find meaning in helping and teaching others.");
  ("E", "Persuasive and leadership-driven. You thrive in business, sales, and leading initiatives.");
  ("C", "Organized and detail-focused. You keep systems running smoothly and accurately.")
].

(** ** GET /api/questions *)

(** The values a handler returns, as FastAPI serialises them. *)
#[local] Set Warnings "-register-all".
Inductive PyValue : Type :=
| PNone
| PInt (n : Z)
| PStr (s : string)
| PList (xs : list PyValue)
| PDict (kvs : list (string * PyValue)).

Definition get_questions : list PyValue :=
  map (fun q =>
         PDict [("id", PInt (q_id q));
                ("text", PStr (q_text q));
                ("options", PDict [("A", PStr (q_A q)); ("B", PStr (q_B q))])])
      QUESTIONS.
#[local] Set Warnings "+register-all".

(** ** POST /api/assess *)

(** The key list of the [scores] comprehension: the six RIASEC codes. *)
Definition RIASEC : list string := ["R"; "I"; "A"; "S"; "E"; "C"].

(** [{k: 0 for k in ["R", "I", "A", "S", "E", "C"]}]. *)
Definition initial_scores : PyDict.t string Z :=
  PyDict.comprehension (fun k => k) (fun _ => 0) RIASEC.

(** [{q["id"]: q for q in QUESTIONS}]. *)
Definition q_index : PyDict.t Z Question :=
  PyDict.comprehension q_id (fun q => q) QUESTIONS.

(** The body of [for ans in req.answers].  [if not q] tests the result of
    [q_index.get]: [None] is falsy, and every catalog entry, a non-empty
    dict, is truthy. *)
Definition score_answer (scores : PyDict.t string Z) (ans : Answer)
    : Py (PyDict.t string Z) :=
  match PyDict.get (question_id ans) q_index with
  | None =>
      Raise (HTTPException 400
               ("Invalid question id: " ++ str (question_id ans)))
  | Some q =>
      if negb (contains (choice ans) ["A"; "B"]) then
        Raise (HTTPException 400 "Choice must be 'A' or 'B'")
      else if (choice ans =? "A")%string then
        iadd (q_type q) 1 scores
      else
        Return scores
  end.

(** The loop itself: the first exception ends it. *)
Fixpoint tally (scores : PyDict.t string Z) (anss : list Answer)
    : Py (PyDict.t string Z) :=
  match anss with
  | [] => Return scores
  | ans :: rest =>
      scores' <- score_answer scores ans ;;
      tally scores' rest
  end.

(** [sorted(xs, key=key, reverse=True)]: descending in [key], and stable,
    so items with equal keys keep the order they have in [xs].  [insert_desc]
    puts [x] in front of the first item whose key is not greater. *)
Fixpoint insert_desc {T : Type} (key : T -> Z) (x : T) (l : list T) : list T :=
  match l with
  | [] => [x]
  | y :: ys =>
      if key y <=? key x then x :: y :: ys else y :: insert_desc key x ys
  end.

Definition sorted_reverse {T : Type} (key : T -> Z) (xs : list T) : list T :=
  fold_right (insert_desc key) [] xs.

(** Lines 88-89: [max_score] and [top_types] from [sorted_types]. *)
Definition select_top_types (sorted_types : list (string * Z))
    : Py (list string) :=
  match sorted_types with
  | [] => Raise IndexError
  | (first, max_score) :: _ =>
      let picked :=
        firstn 2
          (map fst
             (filter (fun ts => (snd ts =? max_score) && (snd ts >? 0))
                     sorted_types)) in
      Return (match picked with
              | [] => [first]
              | _ :: _ => picked
              end)
  end.

(** [if c not in suggested: suggested.append(c)]. *)
Definition append_if_new (suggested : list string) (c : string) : list string :=
  if negb (contains c suggested) then (suggested ++ [c])%list else suggested.

(** The inner loop of lines 93-96 for one type [t]. *)
Definition add_careers (suggested : list string) (t : string) : list string :=
  fold_left append_if_new
            (firstn 3 (PyDict.get_default t [] CAREER_MAP))
            suggested.

Definition suggest (top_types : list string) : list string :=
  fold_left add_careers top_types [].

(** [[SUMMARY_BLURBS[t] for t in top_types]]. *)
Fixpoint blurbs (top_types : list string) : Py (list string) :=
  match top_types with
  | [] => Return []
  | t :: rest =>
      b <- getitem t SUMMARY_BLURBS ;;
      bs <- blurbs rest ;;
      Return (b :: bs)
  end.

(** The dict handed to [create_document]. *)
Record Document : Type := mkDocument {
  doc_name : option string;
  doc_email : option string;
  doc_scores : PyDict.t string Z;
  doc_top_types : list string;
  doc_careers : list string;
  doc_summary : string
}.

(** The dict [assess] returns: keys "id", "scores", "top_types", "careers"
    and "summary". *)
Record AssessmentResult : Type := mkAssessmentResult {
  r_id : option string;
  r_scores : PyDict.t string Z;
  r_top_types : list string;
  r_careers : list string;
  r_summary : string
}.

(** Lines 74-99: everything [assess] computes before it touches the store. *)
Definition evaluate (req : AssessmentRequest) : Py Document :=
  scores <- tally initial_scores (answers req) ;;
  let sorted_types := sorted_reverse snd (PyDict.items scores) in
  top_types <- select_top_types sorted_types ;;
  let suggested := suggest top_types in
  summary_parts <- blurbs top_types ;;
  let summary := join " " summary_parts in
  Return (mkDocument (name req) (email req) scores top_types suggested summary).

Section Assess.
(** The document store and its client.  [create_document] returns the new
    identifier or raises; either way it may have changed the store.  What
    it raises is an instance of [Exception], the class the handler of
    [assess] names; it reads the dict it is given and leaves it as it is. *)
Variable Store : Type.
Variable create_document : string -> Document -> Store -> Py string * Store.

Definition assess (req : AssessmentRequest) (db : Store)
    : Py AssessmentResult * Store :=
  match evaluate req with
  | Raise e => (Raise e, db)
  | Return doc =>
      let (outcome, db') := create_document "assessmentresult" doc db in
      let doc_id :=
        match outcome with
        | Return i => Some i
        | Raise _ => None       (* except Exception: doc_id = None *)
        end in
      (Return (mkAssessmentResult doc_id (doc_scores doc) (doc_top_types doc)
                 (doc_careers doc) (doc_summary doc)),
       db')
  end.
End Assess.
Arguments assess {Store} create_document req db.

(** ** Vocabulary of the properties *)

(** [sum(zs)]. *)
Definition sum (zs : list Z) : Z := fold_right Z.add 0 zs.

(** The largest element of a non-empty list. *)
Definition maximum (zs : list Z) : Z :=
  match zs with
  | [] => 0
  | z :: rest => fold_right Z.max z rest
  end.

(** The score a dictionary gives a category. *)
Definition score_of (scores : PyDict.t string Z) (c : string) : Z :=
  PyDict.get_default c 0 scores.

(** The catalog entry of a question id, if any. *)
Definition lookup_question (i : Z) : option Question :=
  find (fun q => i =? q_id q) QUESTIONS.

Definition known_question (i : Z) : bool :=
  match lookup_question i with
  | Some _ => true
  | None => false
  end.

Definition valid_choice (c : string) : bool :=
  ((c =? "A") || (c =? "B"))%string.

(** An answer passes validation: its id is in the catalog and its choice is
    "A" or "B". *)
Definition valid_answer (a : Answer) : bool :=
  known_question (question_id a) && valid_choice (choice a).

Definition valid_request (req : AssessmentRequest) : Prop :=
  forallb valid_answer (answers req) = true.

(** The answer agrees with the statement of a question of category [c]. *)
Definition agrees_with (c : string) (a : Answer) : bool :=
  ((choice a =? "A")%string
   && match lookup_question (question_id a) with
      | Some q => (q_type q =? c)%string
      | None => false
      end).

(** How many answers chose "A"; how many of them for category [c]. *)
Definition count_A (anss : list Answer) : Z :=
  Z.of_nat (List.length (filter (fun a => (choice a =? "A")%string) anss)).

Definition count_for (c : string) (anss : list Answer) : Z :=
  Z.of_nat (List.length (filter (agrees_with c) anss)).

(** The exception the loop raises at an answer that fails validation: the
    id is looked at before the choice. *)
Definition answer_error (a : Answer) : PyException :=
  if known_question (question_id a) then
    HTTPException 400 "Choice must be 'A' or 'B'"
  else
    HTTPException 400 ("Invalid question id: " ++ str (question_id a)).

(** No item of the list is followed by one with a greater key. *)
Fixpoint descending {T : Type} (key : T -> Z) (l : list T) : Prop :=
  match l with
  | [] => True
  | x :: rest =>
      (forall y, In y rest -> key y <= key x) /\ descending key rest
  end.

(** Step 3 of the scoring algorithm as the specification words it: the
    categories that reach the maximum score and are positive, in the order
    of [RIASEC], cut to two; ["R"] when no score is positive. *)
Definition spec_top_types (scores : PyDict.t string Z) : list string :=
  let m := maximum (PyDict.values scores) in
  if existsb (fun c => score_of scores c >? 0) RIASEC then
    firstn 2
      (filter (fun c => (score_of scores c =? m) && (score_of scores c >? 0))
              RIASEC)
  else
    ["R"].

(** Keep the first occurrence of every title. *)
Fixpoint keep_first (l : list string) : list string :=
  match l with
  | [] => []
  | x :: rest => x :: filter (fun y => negb (y =? x)%string) (keep_first rest)
  end.

(** Step 4 of the scoring algorithm as the specification words it: the
    first three titles of each selected category, one category after the
    other, every title kept where it is first seen. *)
Definition spec_careers (top_types : list string) : list string :=
  keep_first
    (flat_map (fun t => firstn 3 (PyDict.get_default t [] CAREER_MAP))
              top_types).

(** The sentence [SUMMARY_BLURBS] holds for a category. *)
Definition blurb_of (t : string) : string :=
  PyDict.get_default t "" SUMMARY_BLURBS.

(** What [assess] returns for a document, given how the store answered. *)
Definition result_of (outcome : Py string) (doc : Document) : AssessmentResult :=
  mkAssessmentResult
    (match outcome with Return i => Some i | Raise _ => None end)
    (doc_scores doc) (doc_top_types doc) (doc_careers doc) (doc_summary doc).

(** Reading a serialised dict: its keys, and the value under a key. *)
Definition dict_keys (v : PyValue) : list string :=
  match v with
  | PDict kvs => map fst kvs
  | _ => []
  end.

Definition field (k : string) (v : PyValue) : option PyValue :=
  match v with
  | PDict kvs => PyDict.get k kvs
  | _ => None
  end.

(** ** The two routes as a server

    A request is served against the document store; [GET /api/questions]
    does not touch it, [POST /api/assess] hands it to [assess]. *)
Inductive Request : Type :=
| GetQuestions
| PostAssess (req : AssessmentRequest).

Inductive Response : Type :=
| QuestionList (body : list PyValue)
| Assessment (outcome : Py AssessmentResult).

Section Server.
Variable Store : Type.
Variable create_document : string -> Document -> Store -> Py string * Store.

Definition handle (rq : Request) (db : Store) : Response * Store :=
  match rq with
  | GetQuestions => (QuestionList get_questions, db)
  | PostAssess req =>
      let (outcome, db') := assess create_document req db in
      (Assessment outcome, db')
  end.

Fixpoint serve (rqs : list Request) (db : Store) : list Response * Store :=
  match rqs with
  | [] => ([], db)
  | rq :: rest =>
      let (resp, db') := handle rq db in
      let (resps, db'') := serve rest db' in
      (resp :: resps, db'')
  end.
End Server.
Arguments handle {Store} create_document rq db.
Arguments serve {Store} create_document rqs db.

(** ** Two stores to run the handlers against *)

(** A store that is down: every write raises and nothing is kept. *)
Definition store_down (collection_name : string) (data : Document) (db : unit)
    : Py string * unit :=
  (Raise (Exception_ "Database not available"), tt).

(** A store in memory: the document is appended and its position is the
    identifier. *)
Definition store_in_memory (collection_name : string) (data : Document)
    (db : list Document) : Py string * list Document :=
  (Return (str (Z.of_nat (List.length db))), (db ++ [data])%list).

(** ** Requests used as examples *)

(** "A" to the two R questions, "B" to the other ten. *)
Definition request_R_only : AssessmentRequest :=
  mkAssessmentRequest None None
    (map (fun i => mkAnswer i "A") [1; 2]
     ++ map (fun i => mkAnswer i "B") [3; 4; 5; 6; 7; 8; 9; 10; 11; 12])%list.

(** "A" to the R and the I questions: a tie of two categories. *)
Definition request_tie_RI : AssessmentRequest :=
  mkAssessmentRequest (Some "Ada") None
    (map (fun i => mkAnswer i "A") [1; 2; 3; 4]
     ++ map (fun i => mkAnswer i "B") [5; 6; 7; 8; 9; 10; 11; 12])%list.

(** "B" to all twelve questions. *)
Definition request_all_B : AssessmentRequest :=
  mkAssessmentRequest None None
    (map (fun i => mkAnswer i "B") [1; 2; 3; 4; 5; 6; 7; 8; 9; 10; 11; 12]).

(** A good answer, then an unknown id with a bad choice, then a bad choice. *)
Definition request_offending : AssessmentRequest :=
  mkAssessmentRequest None None
    [mkAnswer 12 "A"; mkAnswer 999 "C"; mkAnswer 3 "C"].

(** Thirteen times "A" to question 1. *)
Definition request_thirteen : AssessmentRequest :=
  mkAssessmentRequest None None (repeat (mkAnswer 1 "A") 13).

(** The questions, an assessment, the questions again. *)
Definition requests_in_a_row : list Request :=
  [GetQuestions; PostAssess request_tie_RI; GetQuestions].

(** ** Further vocabulary *)

(** The request with its "B" answers left out. *)
Definition only_A (req : AssessmentRequest) : AssessmentRequest :=
  mkAssessmentRequest (name req) (email req)
    (filter (fun a => (choice a =? "A")%string) (answers req)).

(** The ids a client reads off the body of [GET /api/questions]. *)
Definition listed_ids (body : list PyValue) : list Z :=
  flat_map (fun e => match field "id" e with
                     | Some (PInt i) => [i]
                     | _ => []
                     end)
           body.

(** A client that answers every listed question once, with the choice
    [pick] gives for its id. *)
Definition answer_all (pick : Z -> string) (body : list PyValue)
    : list Answer :=
  map (fun i => mkAnswer i (pick i)) (listed_ids body).

(** The catalog questions of one category. *)
Definition questions_of (c : string) : list Question :=
  filter (fun q => (q_type q =? c)%string) QUESTIONS.

(** ** GET /test *)

(** [db] of the [database] module when it is not [None], as far as the
    handler looks at it.  [db_name] is what reading [db.name] gives: [None]
    when there is no such attribute ([hasattr] is false), a value, or an
    exception raised by the read.  [list_collection_names] is the outcome
    of the call [db.list_collection_names()]. *)
Record Database : Type := mkDatabase {
  db_name : option (Py PyValue);
  list_collection_names : Py (list string)
}.

(** A statement that works on the [response] dict: the dict afterwards,
    and the exception if one was raised on the way. *)
Definition Stmt : Type :=
  PyDict.t string PyValue -> option PyException * PyDict.t string PyValue.

(** [response[k] = v]. *)
Definition assign (k : string) (v : PyValue) : Stmt :=
  fun response => (None, PyDict.setitem k v response).

(** One statement after the other; an exception skips the second. *)
Definition and_then (s1 s2 : Stmt) : Stmt :=
  fun response =>
    match s1 response with
    | (None, response') => s2 response'
    | (Some e, response') => (Some e, response')
    end.

Notation "s1 ;;; s2" := (and_then s1 s2) (at level 62, right associativity).

(** Evaluate an expression that may raise, then go on with its value. *)
Definition eval {T : Type} (c : Py T) (k : T -> Stmt) : Stmt :=
  fun response =>
    match c with
    | Return v => k v response
    | Raise e => (Some e, response)
    end.

(** [try: body / except Exception as e: handler]: the handler starts from
    the dict as the body left it. *)
Definition try_except (body : Stmt) (handler : PyException -> Stmt) : Stmt :=
  fun response =>
    match body response with
    | (None, response') => (None, response')
    | (Some e, response') => handler e response'
    end.

(** A [string] holds the UTF-8 bytes of a Python [str]; a character starts
    at every byte that is not a continuation byte (0x80 to 0xBF). *)
Definition is_continuation (b : ascii) : bool :=
  ((128 <=? nat_of_ascii b) && (nat_of_ascii b <? 192))%nat.

(** [s[:n]]: the first [n] characters of [s]. *)
Fixpoint take_chars (n : nat) (s : string) : string :=
  match s with
  | EmptyString => EmptyString
  | String b rest =>
      if is_continuation b then String b (take_chars n rest)
      else match n with
           | O => EmptyString
           | S n' => String b (take_chars n' rest)
           end
  end.

(** [len(s)]: the number of characters of [s]. *)
Fixpoint char_count (s : string) : nat :=
  match s with
  | EmptyString => O
  | String b rest =>
      if is_continuation b then char_count rest else S (char_count rest)
  end.

(** The truth value of [os.getenv(k)]: set, and not the empty string. *)
Definition env_truthy (v : option string) : bool :=
  match v with
  | Some s => negb (s =? "")%string
  | None => false
  end.

Section Diagnostics.
(** [str(e)] for an exception [e]. *)
Variable exception_str : PyException -> string.

Definition test_database (db : option Database)
    (getenv : string -> option string) : Py PyValue :=
  let response : PyDict.t string PyValue :=
    [("backend", PStr "✅ Running");
     ("database", PStr "❌ Not Available");
     ("database_url", PNone);
     ("database_name", PNone);
     ("connection_status", PStr "Not Connected");
     ("collections", PList [])] in
  let body : Stmt :=
    try_except
      (match db with
       | Some db =>
           assign "database" (PStr "✅ Available") ;;;
           assign "database_url" (PStr "✅ Configured") ;;;
           eval (match db_name db with
                 | Some read => read
                 | None => Return (PStr "✅ Connected")
                 end)
                (fun v => assign "database_name" v) ;;;
           assign "connection_status" (PStr "Connected") ;;;
           try_except
             (eval (list_collection_names db) (fun collections =>
                assign "collections" (PList (map PStr (firstn 10 collections))) ;;;
                assign "database" (PStr "✅ Connected & Working")))
             (fun e =>
                assign "database"
                  (PStr ("⚠️  Connected but Error: " ++ take_chars 50 (exception_str e))))
       | None =>
           assign "database" (PStr "⚠️  Available but not initialized")
       end)
      (fun e =>
         assign "database" (PStr ("❌ Error: " ++ take_chars 50 (exception_str e)))) ;;;
    assign "database_url"
      (PStr (if env_truthy (getenv "DATABASE_URL")
             then "✅ Set" else "❌ Not Set")) ;;;
    assign "database_name"
      (PStr (if env_truthy (getenv "DATABASE_NAME")
             then "✅ Set" else "❌ Not Set")) in
  match body response with
  | (None, response') => Return (PDict response')
  | (Some e, _) => Raise e
  end.
End Diagnostics.

(** The collection names the handler gets to see: those the store lists,
    unless there is no store, reading [db.name] raised before the listing,
    or the listing itself raised. *)
Definition collections_seen (db : option Database) : list string :=
  match db with
  | Some h =>
      match db_name h, list_collection_names h with
      | Some (Raise _), _ => []
      | _, Return names => names
      | _, Raise _ => []
      end
  | None => []
  end.

(** Reading [db.name] does not raise. *)
Definition name_readable (h : Database) : Prop :=
  forall e, db_name h <> Some (Raise e).


Definition db_unreachable : Database :=
  mkDatabase None (Raise (Exception_ "connection refused")).


(** [str(e)] for the examples: the message of a plain exception. *)
Definition message_of (e : PyException) : string :=
  match e with
  | Exception_ message => message
  | KeyError key => key
  | HTTPException _ detail => detail
  | IndexError => ""
  end.

(** The tie request with its answers in reverse order, under another
    name. *)
Definition request_tie_RI_reversed : AssessmentRequest :=
  mkAssessmentRequest (Some "Grace") (Some "grace@example.org")
    (rev (answers request_tie_RI)).

(** "A" to the first four questions, "B" to the others. *)
Definition pick_first_four (i : Z) : string :=
  if i <=? 4 then "A" else "B".

(** The documents of the requests of a sequence that [assess] accepts, in
    the order of the requests. *)
Definition accepted_documents (rqs : list Request) : list Document :=
  flat_map (fun rq => match rq with
                      | PostAssess req =>
                          match evaluate req with
                          | Return doc => [doc]
                          | Raise _ => []
                          end
                      | GetQuestions => []
                      end)
           rqs.

(** ** Facts about dictionaries *)

Section DictFacts.
Context {K V : Type} `{PyKey K}.

Lemma key_eqb_refl (k : K) : key_eqb k k = true.
Proof. now apply key_eqb_eq. Qed.

Lemma key_eqb_neq (x y : K) : key_eqb x y = false <-> x <> y.
Proof.
  split.
  - intros E ->. rewrite key_eqb_refl in E. discriminate.
  - intros N. destruct (key_eqb x y) eqn:E; [|reflexivity].
    apply key_eqb_eq in E. contradiction.
Qed.

Lemma get_setitem (k k' : K) (v : V) (d : PyDict.t K V) :
  PyDict.get k' (PyDict.setitem k v d)
  = if key_eqb k' k then Some v else PyDict.get k' d.
Proof.
  induction d as [|[k0 v0] rest IH]; simpl.
  - reflexivity.
  - destruct (key_eqb k k0) eqn:E; simpl.
    + apply key_eqb_eq in E. subst k0.
      now destruct (key_eqb k' k).
    + rewrite IH. destruct (key_eqb k' k0) eqn:E0; [|reflexivity].
      apply key_eqb_eq in E0. subst k0.
      destruct (key_eqb k' k) eqn:E1; [|reflexivity].
      apply key_eqb_eq in E1. subst k'.
      rewrite key_eqb_refl in E. discriminate.
Qed.

Lemma get_Some_in_keys (k : K) (v : V) (d : PyDict.t K V) :
  PyDict.get k d = Some v -> In k (PyDict.keys d).
Proof.
  induction d as [|[k0 v0] rest IH]; simpl; [discriminate|].
  destruct (key_eqb k k0) eqn:E.
  - apply key_eqb_eq in E. now left.
  - intros G. right. now apply IH.
Qed.

Lemma in_keys_get (k : K) (d : PyDict.t K V) :
  In k (PyDict.keys d) -> exists v, PyDict.get k d = Some v.
Proof.
  induction d as [|[k0 v0] rest IH]; simpl; [contradiction|].
  intros [-> | I].
  - rewrite key_eqb_refl. now exists v0.
  - destruct (key_eqb k k0); [now exists v0 | now apply IH].
Qed.

(** Assigning to a key that is present leaves the key order alone. *)
Lemma keys_setitem_present (k : K) (v : V) (d : PyDict.t K V) :
  In k (PyDict.keys d) -> PyDict.keys (PyDict.setitem k v d) = PyDict.keys d.
Proof.
  induction d as [|[k0 v0] rest IH]; simpl; [contradiction|].
  intros I. destruct (key_eqb k k0) eqn:E; simpl; [reflexivity|].
  f_equal. apply IH. destruct I as [-> | I]; [|exact I].
  rewrite key_eqb_refl in E. discriminate.
Qed.

(** With distinct keys, reading an item's key gives the item's value. *)
Lemma get_item (k : K) (v : V) (d : PyDict.t K V) :
  NoDup (PyDict.keys d) -> In (k, v) d -> PyDict.get k d = Some v.
Proof.
  induction d as [|[k0 v0] rest IH]; simpl; [contradiction|].
  intros N I. inversion N as [|? ? Nin N']; subst.
  destruct I as [E | I].
  - inversion E; subst. now rewrite key_eqb_refl.
  - destruct (key_eqb k k0) eqn:E; [|now apply IH].
    apply key_eqb_eq in E. subst k0. exfalso. apply Nin.
    change (In (fst (k, v)) (map fst rest)). now apply in_map.
Qed.
End DictFacts.

Lemma sum_setitem (k : string) (v v0 : Z) (d : PyDict.t string Z) :
  PyDict.get k d = Some v0 ->
  sum (PyDict.values (PyDict.setitem k v d)) = sum (PyDict.values d) + v - v0.
Proof.
  unfold sum, PyDict.values.
  induction d as [|[k1 v1] rest IH]; simpl; [discriminate|].
  destruct (k =? k1)%string eqn:E; simpl.
  - intros [= ->]. lia.
  - intros G. rewrite (IH G). lia.
Qed.

Lemma values_setitem_nonneg (k : string) (v : Z) (d : PyDict.t string Z) :
  0 <= v -> Forall (fun x => 0 <= x) (PyDict.values d) ->
  Forall (fun x => 0 <= x) (PyDict.values (PyDict.setitem k v d)).
Proof.
  intros Hv. induction d as [|[k1 v1] rest IH]; simpl; intros F.
  - now constructor.
  - inversion F; subst.
    destruct (k =? k1)%string; simpl; constructor; auto.
Qed.

Lemma score_of_nonneg (c : string) (d : PyDict.t string Z) :
  Forall (fun x => 0 <= x) (PyDict.values d) -> 0 <= score_of d c.
Proof.
  unfold score_of, PyDict.get_default.
  induction d as [|[k1 v1] rest IH]; simpl; intros F; [lia|].
  inversion F; subst. destruct (c =? k1)%string; auto.
Qed.

(** [d[k] += n] on a key that is present. *)
Lemma iadd_present (k : string) (n : Z) (d : PyDict.t string Z) :
  In k (PyDict.keys d) ->
  exists d',
    iadd k n d = Return d'
    /\ PyDict.keys d' = PyDict.keys d
    /\ (forall c, score_of d' c = score_of d c + (if (c =? k)%string then n else 0))
    /\ sum (PyDict.values d') = sum (PyDict.values d) + n
    /\ (0 <= n -> Forall (fun x => 0 <= x) (PyDict.values d) ->
        Forall (fun x => 0 <= x) (PyDict.values d')).
Proof.
  intros I. destruct (in_keys_get k d I) as [v0 G].
  exists (PyDict.setitem k (v0 + n) d). unfold iadd, getitem. rewrite G. simpl.
  repeat split.
  - now apply keys_setitem_present.
  - intros c. unfold score_of, PyDict.get_default. rewrite get_setitem.
    change (key_eqb c k) with (c =? k)%string.
    destruct (String.eqb_spec c k) as [-> | N]; [rewrite G|]; lia.
  - rewrite (sum_setitem k (v0 + n) v0 d G). lia.
  - intros Hn F. apply values_setitem_nonneg; [|exact F].
    pose proof (score_of_nonneg k d F) as P.
    unfold score_of, PyDict.get_default in P. rewrite G in P. lia.
Qed.

(** ** The scoring loop *)

Lemma q_index_get (i : Z) : PyDict.get i q_index = lookup_question i.
Proof. reflexivity. Qed.

Lemma contains_In (x : string) (xs : list string) :
  contains x xs = true <-> In x xs.
Proof.
  unfold contains. rewrite existsb_exists. split.
  - intros (y & I & E). apply String.eqb_eq in E. now subst.
  - intros I. exists x. split; [exact I | apply String.eqb_refl].
Qed.

Lemma lookup_question_type (i : Z) (q : Question) :
  lookup_question i = Some q -> In (q_type q) RIASEC.
Proof.
  intros L. apply find_some in L. destruct L as [I _].
  apply contains_In.
  assert (F : forallb (fun q => contains (q_type q) RIASEC) QUESTIONS = true)
    by reflexivity.
  rewrite forallb_forall in F. now apply F.
Qed.

Lemma contains_AB (c : string) : contains c ["A"; "B"] = valid_choice c.
Proof.
  unfold contains, valid_choice. simpl. now rewrite orb_false_r.
Qed.

(** One accepted answer: the keys stay, the category of an "A" gains 1. *)
Lemma score_answer_valid (scores : PyDict.t string Z) (a : Answer) :
  valid_answer a = true ->
  PyDict.keys scores = RIASEC ->
  exists scores',
    score_answer scores a = Return scores'
    /\ PyDict.keys scores' = RIASEC
    /\ (forall c, score_of scores' c
                  = score_of scores c + (if agrees_with c a then 1 else 0))
    /\ sum (PyDict.values scores')
       = sum (PyDict.values scores) + (if (choice a =? "A")%string then 1 else 0)
    /\ (Forall (fun x => 0 <= x) (PyDict.values scores) ->
        Forall (fun x => 0 <= x) (PyDict.values scores')).
Proof.
  unfold valid_answer, known_question, score_answer, agrees_with.
  rewrite q_index_get, contains_AB.
  destruct (lookup_question (question_id a)) as [q|] eqn:L; [|discriminate].
  simpl. intros V K. rewrite V. simpl.
  destruct (choice a =? "A")%string eqn:EA; simpl.
  - destruct (iadd_present (q_type q) 1 scores) as (d' & R & K' & S & T & F).
    { rewrite K. now apply lookup_question_type with (i := question_id a). }
    exists d'. repeat split; auto; try congruence.
    + intros c. rewrite S. now rewrite String.eqb_sym.
    + apply F. lia.
  - exists scores. repeat split; auto; intros; lia.
Qed.

(** One rejected answer: the loop body raises, id first, then choice. *)
Lemma score_answer_invalid (scores : PyDict.t string Z) (a : Answer) :
  valid_answer a = false ->
  score_answer scores a = Raise (answer_error a).
Proof.
  unfold valid_answer, score_answer, answer_error, known_question.
  rewrite q_index_get, contains_AB.
  destruct (lookup_question (question_id a)) as [q|]; cbn [andb];
    [|reflexivity].
  now intros ->.
Qed.

Lemma count_A_cons (a : Answer) (anss : list Answer) :
  count_A (a :: anss)
  = (if (choice a =? "A")%string then 1 else 0) + count_A anss.
Proof.
  unfold count_A. simpl. destruct (choice a =? "A")%string; simpl List.length; lia.
Qed.

Lemma count_for_cons (c : string) (a : Answer) (anss : list Answer) :
  count_for c (a :: anss)
  = (if agrees_with c a then 1 else 0) + count_for c anss.
Proof.
  unfold count_for. simpl. destruct (agrees_with c a); simpl List.length; lia.
Qed.

(** The whole loop on accepted answers. *)
Lemma tally_valid (anss : list Answer) :
  forall scores : PyDict.t string Z,
  forallb valid_answer anss = true ->
  PyDict.keys scores = RIASEC ->
  exists scores',
    tally scores anss = Return scores'
    /\ PyDict.keys scores' = RIASEC
    /\ (forall c, score_of scores' c = score_of scores c + count_for c anss)
    /\ sum (PyDict.values scores') = sum (PyDict.values scores) + count_A anss
    /\ (Forall (fun x => 0 <= x) (PyDict.values scores) ->
        Forall (fun x => 0 <= x) (PyDict.values scores')).
Proof.
  induction anss as [|a rest IH]; intros scores V K.
  - exists scores. repeat split; auto; intros; unfold count_for, count_A; simpl; lia.
  - simpl in V. apply andb_true_iff in V. destruct V as [Va Vr].
    destruct (score_answer_valid scores a Va K) as (s1 & R1 & K1 & S1 & T1 & F1).
    destruct (IH s1 Vr K1) as (s2 & R2 & K2 & S2 & T2 & F2).
    exists s2. simpl. rewrite R1. simpl. repeat split; auto.
    + intros c. rewrite S2, S1, count_for_cons. lia.
    + rewrite T2, T1, count_A_cons. lia.
Qed.

(** The loop stops at the first answer that fails validation. *)
Lemma tally_first_invalid (pre post : list Answer) (a : Answer) :
  forall scores : PyDict.t string Z,
  forallb valid_answer pre = true ->
  valid_answer a = false ->
  PyDict.keys scores = RIASEC ->
  tally scores (pre ++ a :: post) = Raise (answer_error a).
Proof.
  induction pre as [|p pre IH]; intros scores V Na K; simpl.
  - now rewrite score_answer_invalid.
  - simpl in V. apply andb_true_iff in V. destruct V as [Vp Vr].
    destruct (score_answer_valid scores p Vp K) as (s1 & R1 & K1 & _).
    rewrite R1. simpl. now apply IH.
Qed.

(** A list with a rejected answer has a first one. *)
Lemma first_invalid (anss : list Answer) :
  forallb valid_answer anss = false ->
  exists pre a post,
    anss = (pre ++ a :: post)%list
    /\ forallb valid_answer pre = true
    /\ valid_answer a = false.
Proof.
  induction anss as [|x rest IH]; simpl; [discriminate|].
  destruct (valid_answer x) eqn:Vx; simpl.
  - intros N. destruct (IH N) as (pre & a & post & E & Vp & Na).
    exists (x :: pre), a, post. subst rest. simpl. rewrite Vx. auto.
  - intros _. exists [], x, rest. auto.
Qed.

Lemma initial_scores_keys : PyDict.keys initial_scores = RIASEC.
Proof. reflexivity. Qed.

(** ** [sorted(..., reverse=True)]: a stable descending sort *)

Section SortedReverse.
Context {T : Type} (key : T -> Z).

Lemma insert_desc_perm (x : T) (l : list T) :
  Permutation (insert_desc key x l) (x :: l).
Proof.
  induction l as [|y ys IH]; simpl.
  - apply Permutation_refl.
  - destruct (key y <=? key x).
    + apply Permutation_refl.
    + eapply perm_trans; [apply perm_skip, IH | apply perm_swap].
Qed.

Lemma sorted_reverse_perm (l : list T) :
  Permutation (sorted_reverse key l) l.
Proof.
  induction l as [|x xs IH]; simpl.
  - apply perm_nil.
  - eapply perm_trans; [apply insert_desc_perm | now apply perm_skip].
Qed.

Lemma insert_desc_descending (x : T) (l : list T) :
  descending key l -> descending key (insert_desc key x l).
Proof.
  induction l as [|y ys IH]; simpl.
  - intros _. split; [contradiction | exact I].
  - intros [Hy Hys]. destruct (Z.leb_spec (key y) (key x)) as [L | G]; simpl.
    + split; [|split; assumption].
      intros z [<- | Iz]; [exact L|]. specialize (Hy z Iz). lia.
    + split; [|now apply IH].
      intros z Iz.
      apply (Permutation_in _ (insert_desc_perm x ys)) in Iz.
      destruct Iz as [<- | Iz]; [lia | now apply Hy].
Qed.

Lemma sorted_reverse_descending (l : list T) :
  descending key (sorted_reverse key l).
Proof.
  induction l as [|x xs IH]; simpl; [exact I|].
  now apply insert_desc_descending.
Qed.

(** Stability, in the form the selection needs: the items with one given
    key (and any further property [g]) come out in their input order. *)
Lemma insert_desc_filter (k : Z) (g : T -> bool) (x : T) (l : list T) :
  let p := fun y => (key y =? k) && g y in
  filter p (insert_desc key x l)
  = if p x then x :: filter p l else filter p l.
Proof.
  intros p. induction l as [|y ys IH]; simpl.
  - reflexivity.
  - destruct (Z.leb_spec (key y) (key x)) as [L | G]; simpl.
    + reflexivity.
    + rewrite IH. destruct (p x) eqn:Px, (p y) eqn:Py; try reflexivity.
      unfold p in Px, Py.
      apply andb_true_iff in Px. apply andb_true_iff in Py.
      destruct Px as [Px _], Py as [Py _].
      apply Z.eqb_eq in Px. apply Z.eqb_eq in Py. lia.
Qed.

Lemma sorted_reverse_stable (k : Z) (g : T -> bool) (l : list T) :
  let p := fun y => (key y =? k) && g y in
  filter p (sorted_reverse key l) = filter p l.
Proof.
  intros p. induction l as [|x xs IH]; simpl; [reflexivity|].
  unfold p. rewrite insert_desc_filter. fold p. rewrite IH.
  reflexivity.
Qed.

(** The first item of the result carries a largest key. *)
Lemma sorted_reverse_head (l rest : list T) (x : T) :
  sorted_reverse key l = x :: rest ->
  In x l /\ forall y, In y l -> key y <= key x.
Proof.
  intros E. pose proof (sorted_reverse_perm l) as P.
  pose proof (sorted_reverse_descending l) as D.
  rewrite E in P, D. split.
  - apply (Permutation_in _ P). now left.
  - intros y Iy. apply (Permutation_in _ (Permutation_sym P)) in Iy.
    destruct Iy as [<- | Iy]; [lia | now apply D].
Qed.

(** When all keys are equal the list comes back as it is. *)
Lemma sorted_reverse_constant (k : Z) (l : list T) :
  (forall y, In y l -> key y = k) -> sorted_reverse key l = l.
Proof.
  intros A.
  pose proof (sorted_reverse_stable k (fun _ => true) l) as S. simpl in S.
  rewrite (forallb_filter_id _ l) in S.
  - rewrite forallb_filter_id in S; [exact S|].
    apply forallb_forall. intros y Iy.
    apply (Permutation_in _ (sorted_reverse_perm l)) in Iy.
    rewrite (A y Iy), Z.eqb_refl. reflexivity.
  - apply forallb_forall. intros y Iy.
    rewrite (A y Iy), Z.eqb_refl. reflexivity.
Qed.
End SortedReverse.

(** ** Selecting the top types *)

Lemma maximum_spec (z : Z) (rest : list Z) :
  In (maximum (z :: rest)) (z :: rest)
  /\ forall y, In y (z :: rest) -> y <= maximum (z :: rest).
Proof.
  simpl. induction rest as [|x xs [I G]]; simpl.
  - split; [now left | intros y [<- | []]; lia].
  - split.
    + destruct (Z.max_spec x (fold_right Z.max z xs)) as [[_ ->] | [_ ->]].
      * destruct I as [I | I]; [now left | now right; right].
      * right. now left.
    + intros y [<- | [<- | Iy]].
      * specialize (G _ (or_introl eq_refl)). lia.
      * lia.
      * specialize (G y (or_intror Iy)). lia.
Qed.

Lemma maximum_unique (m : Z) (zs : list Z) :
  In m zs -> (forall y, In y zs -> y <= m) -> maximum zs = m.
Proof.
  destruct zs as [|z rest]; [contradiction|].
  intros I G. destruct (maximum_spec z rest) as [I' G'].
  specialize (G _ I'). specialize (G' _ I). lia.
Qed.

(** With distinct keys, filtering items by value and filtering keys by
    score select the same categories. *)
Lemma filter_items_keys (f : Z -> bool) (d : PyDict.t string Z) :
  NoDup (PyDict.keys d) ->
  map fst (filter (fun ts => f (snd ts)) (PyDict.items d))
  = filter (fun c => f (score_of d c)) (PyDict.keys d).
Proof.
  intros N. unfold PyDict.items, PyDict.keys.
  assert (G : forall l, incl l d ->
            map fst (filter (fun ts => f (snd ts)) l)
            = filter (fun c => f (score_of d c)) (map fst l)).
  { induction l as [|[k v] l IH]; intros Hin; simpl; [reflexivity|].
    assert (S : score_of d k = v).
    { unfold score_of, PyDict.get_default.
      rewrite (get_item k v d N); [reflexivity|].
      apply Hin. now left. }
    rewrite S. rewrite <- IH by (intros x Ix; apply Hin; now right).
    now destruct (f v). }
  apply G, incl_refl.
Qed.

Lemma RIASEC_NoDup : NoDup RIASEC.
Proof.
  unfold RIASEC.
  repeat (constructor; [rewrite <- contains_In; discriminate|]).
  constructor.
Qed.

Lemma in_values_score (v : Z) (d : PyDict.t string Z) :
  NoDup (PyDict.keys d) -> In v (PyDict.values d) ->
  exists c, In c (PyDict.keys d) /\ score_of d c = v.
Proof.
  intros N I. unfold PyDict.values in I. apply in_map_iff in I.
  destruct I as ([k w] & E & I). simpl in E. subst w.
  exists k. split.
  - unfold PyDict.keys. change k with (fst (k, v)). now apply in_map.
  - unfold score_of, PyDict.get_default. now rewrite (get_item k v d N I).
Qed.

Lemma score_in_values (c : string) (d : PyDict.t string Z) :
  In c (PyDict.keys d) -> In (score_of d c) (PyDict.values d).
Proof.
  unfold score_of, PyDict.get_default, PyDict.keys, PyDict.values.
  induction d as [|[k v] rest IH]; simpl; [contradiction|].
  intros I. destruct (String.eqb_spec c k) as [-> | Nk].
  - now left.
  - right. apply IH. destruct I as [E | I]; [congruence | exact I].
Qed.

Lemma filter_none {X : Type} (f : X -> bool) (l : list X) :
  (forall x, In x l -> f x = false) -> filter f l = [].
Proof.
  induction l as [|x xs IH]; simpl; intros A; [reflexivity|].
  rewrite (A x (or_introl eq_refl)). apply IH. intros y Iy. apply A. now right.
Qed.

(** A positive score makes the maximum positive, and some category
    reaches it. *)
Lemma top_candidates_nonempty (scores : PyDict.t string Z) :
  PyDict.keys scores = RIASEC ->
  existsb (fun c => score_of scores c >? 0) RIASEC = true ->
  filter (fun c => (score_of scores c =? maximum (PyDict.values scores))
                   && (score_of scores c >? 0)) RIASEC <> [].
Proof.
  intros K Ex.
  assert (N : NoDup (PyDict.keys scores)) by (rewrite K; apply RIASEC_NoDup).
  apply existsb_exists in Ex. destruct Ex as (c & Ic & Pc).
  apply Z.gtb_lt in Pc. rewrite <- K in Ic. apply score_in_values in Ic.
  destruct (PyDict.values scores) as [|z rest] eqn:EV; [contradiction|].
  destruct (maximum_spec z rest) as [Im Gm]. rewrite <- EV in *.
  specialize (Gm _ Ic).
  destruct (in_values_score _ scores N Im) as (c' & Ic' & Sc').
  intros Z0.
  assert (Isel : In c' (filter (fun c =>
            (score_of scores c =? maximum (PyDict.values scores))
            && (score_of scores c >? 0)) RIASEC)).
  { apply filter_In. rewrite <- K. split; [exact Ic'|].
    rewrite Sc', Z.eqb_refl. simpl. apply Z.gtb_lt. lia. }
  rewrite Z0 in Isel. contradiction.
Qed.

Lemma firstn_2_nonempty {X : Type} (l : list X) :
  l <> [] -> firstn 2 l <> [].
Proof. destruct l; [congruence | discriminate]. Qed.

(** The code's selection is the specification's. *)
Lemma select_top_types_spec (scores : PyDict.t string Z) :
  PyDict.keys scores = RIASEC ->
  Forall (fun x => 0 <= x) (PyDict.values scores) ->
  select_top_types (sorted_reverse snd (PyDict.items scores))
  = Return (spec_top_types scores).
Proof.
  intros K F.
  assert (N : NoDup (PyDict.keys scores)) by (rewrite K; apply RIASEC_NoDup).
  unfold select_top_types.
  destruct (sorted_reverse snd (PyDict.items scores)) as [|[first max_score] rest] eqn:E.
  { pose proof (sorted_reverse_perm snd (PyDict.items scores)) as P.
    rewrite E in P. apply Permutation_nil in P. unfold PyDict.items in P.
    rewrite P in K. discriminate. }
  destruct (sorted_reverse_head snd _ _ _ E) as [I G]. simpl in G.
  assert (M : maximum (PyDict.values scores) = max_score).
  { apply maximum_unique.
    - unfold PyDict.values. change max_score with (snd (first, max_score)).
      now apply in_map.
    - intros y Iy. unfold PyDict.values in Iy. apply in_map_iff in Iy.
      destruct Iy as (ts & <- & Its). now apply G. }
  rewrite <- E.
  rewrite (sorted_reverse_stable snd max_score (fun ts => snd ts >? 0)).
  rewrite (filter_items_keys (fun s => (s =? max_score) && (s >? 0)) scores N).
  rewrite K. unfold spec_top_types. rewrite M.
  destruct (existsb (fun c => score_of scores c >? 0) RIASEC) eqn:Ex.
  - (* some score is positive: the maximum is, and it is attained *)
    pose proof (top_candidates_nonempty scores K Ex) as NE.
    rewrite M in NE. apply firstn_2_nonempty in NE.
    destruct (firstn 2 _); [congruence | reflexivity].
  - (* no score is positive: nothing is picked, the sort changes nothing *)
    assert (Z0 : forall ts, In ts (PyDict.items scores) -> snd ts = 0).
    { intros [k v] Its. simpl.
      assert (Iv : In v (PyDict.values scores)).
      { unfold PyDict.values. change v with (snd (k, v)). now apply in_map. }
      rewrite Forall_forall in F. specialize (F v Iv).
      assert (~ 0 < v); [|lia]. intros Pv.
      assert (Ik : In k RIASEC).
      { rewrite <- K. unfold PyDict.keys. change k with (fst (k, v)).
        now apply in_map. }
      assert (existsb (fun c => score_of scores c >? 0) RIASEC = true);
        [|congruence].
      apply existsb_exists. exists k. split; [exact Ik|].
      unfold score_of, PyDict.get_default.
      rewrite (get_item k v scores N Its). now apply Z.gtb_lt. }
    rewrite (sorted_reverse_constant snd 0 _ Z0) in E.
    assert (Hfirst : first = "R").
    { unfold PyDict.items in E. rewrite E in K. simpl in K.
      unfold RIASEC in K. now inversion K. }
    subst first.
    replace (filter _ RIASEC) with (@nil string); [reflexivity|].
    symmetry. apply filter_none. intros c Ic.
    destruct (score_of scores c >? 0) eqn:Pc.
    + assert (existsb (fun c => score_of scores c >? 0) RIASEC = true);
        [|congruence].
      apply existsb_exists. exists c. now split.
    + now rewrite andb_false_r.
Qed.

(** The selection has one or two entries, all of them category codes, and
    none twice. *)
Lemma spec_top_types_shape (scores : PyDict.t string Z) :
  PyDict.keys scores = RIASEC ->
  (List.length (spec_top_types scores) = 1%nat
   \/ List.length (spec_top_types scores) = 2%nat)
  /\ Forall (fun t => In t RIASEC) (spec_top_types scores)
  /\ NoDup (spec_top_types scores).
Proof.
  intros K. unfold spec_top_types.
  destruct (existsb _ RIASEC) eqn:Ex.
  - pose proof (top_candidates_nonempty scores K Ex) as NE.
    set (sel := filter _ RIASEC) in *.
    assert (Hsub : forall t, In t (firstn 2 sel) -> In t RIASEC).
    { intros t It. rewrite <- (firstn_skipn 2 sel) in NE.
      assert (Is : In t sel).
      { rewrite <- (firstn_skipn 2 sel). apply in_or_app. now left. }
      apply filter_In in Is. tauto. }
    assert (Nsel : NoDup sel) by (apply NoDup_filter, RIASEC_NoDup).
    repeat split.
    + destruct sel as [|a [|b l]]; [congruence | now left | now right].
    + now apply Forall_forall.
    + rewrite <- (firstn_skipn 2 sel) in Nsel.
      now apply NoDup_app_remove_r in Nsel.
  - repeat split.
    + now left.
    + constructor; [|constructor]. apply contains_In. reflexivity.
    + constructor; [intros []|constructor].
Qed.

(** ** Career suggestions *)

Lemma filter_filter_ext {X : Type} (f g h : X -> bool) (l : list X) :
  (forall x, h x = f x && g x) ->
  filter f (filter g l) = filter h l.
Proof.
  intros E. induction l as [|x xs IH]; simpl; [reflexivity|].
  rewrite E. destruct (g x); simpl.
  - rewrite andb_true_r. now destruct (f x); rewrite IH.
  - now rewrite andb_false_r.
Qed.

Lemma contains_app (x : string) (l1 l2 : list string) :
  contains x (l1 ++ l2) = contains x l1 || contains x l2.
Proof. unfold contains. apply existsb_app. Qed.

(** The loop over titles, started from any accumulated list. *)
Lemma fold_append_if_new (l acc : list string) :
  fold_left append_if_new l acc
  = (acc ++ filter (fun y => negb (contains y acc)) (keep_first l))%list.
Proof.
  revert acc. induction l as [|x rest IH]; intros acc; simpl.
  - now rewrite app_nil_r.
  - rewrite IH. unfold append_if_new.
    destruct (contains x acc) eqn:C; simpl.
    + f_equal. symmetry. apply filter_filter_ext. intros y.
      destruct (String.eqb_spec y x) as [-> | Ny]; simpl.
      * now rewrite C.
      * now rewrite andb_true_r.
    + rewrite <- app_assoc. simpl. do 2 f_equal. symmetry.
      apply filter_filter_ext. intros y. rewrite contains_app. simpl.
      rewrite orb_false_r, negb_orb. reflexivity.
Qed.

Lemma fold_add_careers (top_types acc : list string) :
  fold_left add_careers top_types acc
  = fold_left append_if_new
      (flat_map (fun t => firstn 3 (PyDict.get_default t [] CAREER_MAP))
                top_types)
      acc.
Proof.
  revert acc. induction top_types as [|t rest IH]; intros acc; simpl.
  - reflexivity.
  - now rewrite fold_left_app, IH.
Qed.

(** The nested loops compute the specification's list. *)
Lemma suggest_spec (top_types : list string) :
  suggest top_types = spec_careers top_types.
Proof.
  unfold suggest, spec_careers.
  rewrite fold_add_careers, fold_append_if_new. simpl.
  apply forallb_filter_id. apply forallb_forall. reflexivity.
Qed.

Lemma append_if_new_NoDup (acc : list string) (c : string) :
  NoDup acc -> NoDup (append_if_new acc c).
Proof.
  intros N. unfold append_if_new. destruct (contains c acc) eqn:C; simpl.
  - exact N.
  - apply NoDup_rev in N. rewrite <- (rev_involutive (acc ++ [c])).
    apply NoDup_rev. rewrite rev_app_distr. simpl. constructor; [|exact N].
    rewrite <- in_rev. intros I. apply contains_In in I. congruence.
Qed.

Lemma append_if_new_length (acc : list string) (c : string) :
  (List.length (append_if_new acc c) <= S (List.length acc))%nat.
Proof.
  unfold append_if_new. destruct (contains c acc); simpl.
  - lia.
  - rewrite length_app. simpl. lia.
Qed.

Lemma fold_append_if_new_NoDup (l acc : list string) :
  NoDup acc -> NoDup (fold_left append_if_new l acc).
Proof.
  revert acc. induction l as [|x rest IH]; intros acc N; simpl.
  - exact N.
  - apply IH. now apply append_if_new_NoDup.
Qed.

Lemma fold_append_if_new_length (l acc : list string) :
  (List.length (fold_left append_if_new l acc)
   <= List.length acc + List.length l)%nat.
Proof.
  revert acc. induction l as [|x rest IH]; intros acc; simpl.
  - lia.
  - specialize (IH (append_if_new acc x)).
    pose proof (append_if_new_length acc x). lia.
Qed.

Lemma suggest_NoDup (top_types : list string) : NoDup (suggest top_types).
Proof.
  unfold suggest. rewrite fold_add_careers.
  apply fold_append_if_new_NoDup. constructor.
Qed.

Lemma suggest_length (top_types : list string) :
  (List.length (suggest top_types) <= 3 * List.length top_types)%nat.
Proof.
  unfold suggest. rewrite fold_add_careers.
  eapply Nat.le_trans; [apply fold_append_if_new_length|].
  cbn [List.length Nat.add].
  induction top_types as [|t rest IH]; cbn [flat_map List.length].
  - lia.
  - rewrite length_app.
    pose proof (firstn_le_length 3 (PyDict.get_default t [] CAREER_MAP)). lia.
Qed.

(** ** The summary *)

Lemma getitem_blurb (t : string) :
  In t RIASEC -> getitem t SUMMARY_BLURBS = Return (blurb_of t).
Proof.
  intros I. unfold RIASEC in I. simpl in I.
  repeat (destruct I as [<- | I]; [reflexivity|]). contradiction.
Qed.

Lemma blurbs_categories (top_types : list string) :
  Forall (fun t => In t RIASEC) top_types ->
  blurbs top_types = Return (map blurb_of top_types).
Proof.
  induction 1 as [|t rest It _ IH]; simpl.
  - reflexivity.
  - rewrite (getitem_blurb t It), IH. reflexivity.
Qed.

(** ** Validation, in words *)

Lemma known_question_In (i : Z) :
  known_question i = true <-> In i (map q_id QUESTIONS).
Proof.
  unfold known_question, lookup_question.
  destruct (find (fun q => i =? q_id q) QUESTIONS) as [q|] eqn:E.
  - apply find_some in E. destruct E as [Iq Eq]. apply Z.eqb_eq in Eq.
    split; [intros _ | reflexivity]. rewrite Eq. now apply in_map.
  - split; [discriminate|]. intros I. apply in_map_iff in I.
    destruct I as (q & Eq & Iq). pose proof (find_none _ _ E q Iq) as N.
    simpl in N. rewrite Eq, Z.eqb_refl in N. discriminate.
Qed.

Lemma valid_choice_iff (c : string) :
  valid_choice c = true <-> c = "A" \/ c = "B".
Proof.
  unfold valid_choice. rewrite orb_true_iff, !String.eqb_eq. reflexivity.
Qed.

Lemma valid_answer_iff (a : Answer) :
  valid_answer a = true
  <-> In (question_id a) (map q_id QUESTIONS)
      /\ (choice a = "A" \/ choice a = "B").
Proof.
  unfold valid_answer.
  rewrite andb_true_iff, known_question_In, valid_choice_iff. reflexivity.
Qed.

Lemma valid_answer_false_iff (a : Answer) :
  valid_answer a = false
  <-> ~ In (question_id a) (map q_id QUESTIONS)
      \/ (choice a <> "A" /\ choice a <> "B").
Proof.
  rewrite <- not_true_iff_false, valid_answer_iff.
  destruct (in_dec Z.eq_dec (question_id a) (map q_id QUESTIONS));
    destruct (string_dec (choice a) "A"); destruct (string_dec (choice a) "B");
    tauto.
Qed.

(** ** The handler on accepted and on rejected requests *)

(** What [evaluate] computes on a request that passes validation. *)
Lemma evaluate_valid (req : AssessmentRequest) :
  valid_request req ->
  exists scores,
    tally initial_scores (answers req) = Return scores
    /\ PyDict.keys scores = RIASEC
    /\ Forall (fun x => 0 <= x) (PyDict.values scores)
    /\ (forall c, score_of scores c = count_for c (answers req))
    /\ sum (PyDict.values scores) = count_A (answers req)
    /\ evaluate req
       = Return (mkDocument (name req) (email req) scores
                   (spec_top_types scores)
                   (suggest (spec_top_types scores))
                   (join " " (map blurb_of (spec_top_types scores)))).
Proof.
  intros V.
  destruct (tally_valid (answers req) initial_scores V initial_scores_keys)
    as (scores & R & K & S & T & F).
  assert (F0 : Forall (fun x => 0 <= x) (PyDict.values scores)).
  { apply F. unfold initial_scores, RIASEC. simpl.
    repeat constructor; discriminate. }
  exists scores. repeat split; auto.
  - intros c. rewrite S.
    assert (Z0 : score_of initial_scores c = 0); [|lia].
    unfold score_of, PyDict.get_default, initial_scores. simpl.
    repeat match goal with |- context [(c =? ?k)%string] =>
      destruct (c =? k)%string; [reflexivity|] end.
    reflexivity.
  - unfold evaluate. rewrite R. cbn [bind].
    rewrite (select_top_types_spec scores K F0). cbn [bind].
    destruct (spec_top_types_shape scores K) as (_ & In6 & _).
    rewrite (blurbs_categories _ In6). reflexivity.
Qed.

Section AssessFacts.
Context {Store : Type}.
Variable create_document : string -> Document -> Store -> Py string * Store.

(** An accepted request always gets a result: the evaluated document,
    with the identifier the store gave or none. *)
Lemma assess_valid (req : AssessmentRequest) (db : Store) :
  valid_request req ->
  exists doc,
    evaluate req = Return doc
    /\ assess create_document req db
       = (Return (result_of (fst (create_document "assessmentresult" doc db)) doc),
          snd (create_document "assessmentresult" doc db)).
Proof.
  intros V. destruct (evaluate_valid req V) as (scores & _ & _ & _ & _ & _ & E).
  eexists. split; [exact E|]. unfold assess. rewrite E.
  destruct (create_document _ _ db) as [outcome db']. reflexivity.
Qed.

(** A rejected request raises at its first offending answer, and the store
    is not touched. *)
Lemma assess_first_invalid (req : AssessmentRequest) (db : Store)
    (pre post : list Answer) (a : Answer) :
  answers req = (pre ++ a :: post)%list ->
  forallb valid_answer pre = true ->
  valid_answer a = false ->
  assess create_document req db = (Raise (answer_error a), db).
Proof.
  intros E Vp Na. unfold assess, evaluate.
  rewrite E, (tally_first_invalid pre post a _ Vp Na initial_scores_keys).
  reflexivity.
Qed.

Lemma assess_invalid (req : AssessmentRequest) (db : Store) :
  ~ valid_request req ->
  exists a,
    In a (answers req) /\ valid_answer a = false
    /\ assess create_document req db = (Raise (answer_error a), db).
Proof.
  intros N. unfold valid_request in N. apply not_true_is_false in N.
  destruct (first_invalid _ N) as (pre & a & post & E & Vp & Na).
  exists a. repeat split; [|exact Na|].
  - rewrite E. apply in_or_app. right. now left.
  - now apply assess_first_invalid with (pre := pre) (post := post).
Qed.

Lemma assess_returns_valid (req : AssessmentRequest) (db db' : Store)
    (r : AssessmentResult) :
  assess create_document req db = (Return r, db') -> valid_request req.
Proof.
  intros R. destruct (forallb valid_answer (answers req)) eqn:V; [exact V|].
  destruct (assess_invalid req db) as (a & _ & _ & E).
  - unfold valid_request. now rewrite V.
  - rewrite E in R. discriminate.
Qed.
End AssessFacts.

(** Everything the claims need about an accepted request, in one place. *)
Lemma assess_accepts {Store : Type}
    (create_document : string -> Document -> Store -> Py string * Store)
    (req : AssessmentRequest) (db : Store) :
  valid_request req ->
  exists scores doc_id db',
    assess create_document req db
    = (Return (mkAssessmentResult doc_id scores
                 (spec_top_types scores)
                 (suggest (spec_top_types scores))
                 (join " " (map blurb_of (spec_top_types scores)))),
       db')
    /\ PyDict.keys scores = RIASEC
    /\ Forall (fun x => 0 <= x) (PyDict.values scores)
    /\ (forall c, score_of scores c = count_for c (answers req))
    /\ sum (PyDict.values scores) = count_A (answers req).
Proof.
  intros V.
  destruct (evaluate_valid req V) as (scores & _ & K & F & S & T & E).
  destruct (assess_valid create_document req db V) as (doc & E' & R).
  rewrite E in E'. injection E' as <-.
  exists scores. eexists. eexists. split; [exact R|]. auto.
Qed.

(** ** Properties of [assess] and [get_questions] *)

(** C1. For every valid answer list, [assess] selects [top_types] so: when
    some category has a positive score, the categories whose score equals
    the maximum score and is positive, in the order R, I, A, S, E, C, cut to
    the first two; when no category has a positive score (in particular
    when every answer is "B" or there is none), the single category "R". *)
Theorem assess_top_types_selection {Store : Type}
    (create_document : string -> Document -> Store -> Py string * Store)
    (req : AssessmentRequest) (db : Store) :
  valid_request req ->
  exists r db',
    assess create_document req db = (Return r, db')
    /\ let score := score_of (r_scores r) in
       let max_score := maximum (PyDict.values (r_scores r)) in
       ((exists c, In c RIASEC /\ 0 < score c) ->
        r_top_types r
        = firstn 2 (filter (fun c => (score c =? max_score) && (score c >? 0))
                           ["R"; "I"; "A"; "S"; "E"; "C"]))
       /\ (~ (exists c, In c RIASEC /\ 0 < score c) -> r_top_types r = ["R"])
       /\ ((forall a, In a (answers req) -> choice a = "B") ->
           r_top_types r = ["R"]).
Proof.
  intros V.
  destruct (assess_accepts create_document req db V)
    as (scores & doc_id & db' & R & K & F & S & T).
  eexists. exists db'. split; [exact R|]. cbn [r_scores r_top_types].
  assert (Pos : existsb (fun c => score_of scores c >? 0) RIASEC = true
                <-> exists c, In c RIASEC /\ 0 < score_of scores c).
  { rewrite existsb_exists. split; intros (c & Ic & Pc); exists c; split; auto;
      now apply Z.gtb_lt. }
  assert (Neg : ~ (exists c, In c RIASEC /\ 0 < score_of scores c) ->
                spec_top_types scores = ["R"]).
  { intros N. unfold spec_top_types.
    destruct (existsb _ RIASEC) eqn:Ex; [|reflexivity].
    exfalso. apply N, Pos. reflexivity. }
  repeat split.
  - intros P. apply Pos in P. unfold spec_top_types. now rewrite P.
  - exact Neg.
  - intros B. apply Neg. intros (c & _ & Pc). rewrite S in Pc.
    unfold count_for in Pc.
    rewrite (filter_none (agrees_with c) (answers req)) in Pc; [simpl in Pc; lia|].
    intros a Ia. unfold agrees_with. now rewrite (B a Ia).
Qed.

(** C2. For every answer list that passes validation, the [scores] that
    [assess] returns have exactly the six keys R, I, A, S, E, C, every value
    is a non-negative integer, and the six values add up to the number of
    answers whose choice is "A": each "A" adds 1 to the category of its
    question, and a "B" adds nothing. *)
Theorem assess_scores_count_A {Store : Type}
    (create_document : string -> Document -> Store -> Py string * Store)
    (req : AssessmentRequest) (db : Store) :
  valid_request req ->
  exists r db',
    assess create_document req db = (Return r, db')
    /\ PyDict.keys (r_scores r) = ["R"; "I"; "A"; "S"; "E"; "C"]
    /\ Forall (fun v => 0 <= v) (PyDict.values (r_scores r))
    /\ sum (PyDict.values (r_scores r)) = count_A (answers req)
    /\ (forall c, score_of (r_scores r) c = count_for c (answers req)).
Proof.
  intros V.
  destruct (assess_accepts create_document req db V)
    as (scores & doc_id & db' & R & K & F & S & T).
  eexists. exists db'. split; [exact R|]. cbn [r_scores]. auto.
Qed.

(** C3. [assess] fails with a 4xx client error exactly when some submitted
    answer names a question id that is not in the catalog or has a choice
    other than "A" and "B".  The error is that of the first such answer in
    input order, the id being checked before the choice; nothing is scored
    or stored, and no result comes back. *)
Theorem assess_rejects_first_offending {Store : Type}
    (create_document : string -> Document -> Store -> Py string * Store)
    (req : AssessmentRequest) (db : Store) :
  ((exists status detail,
      fst (assess create_document req db)
      = Raise (HTTPException status detail)
      /\ 400 <= status < 500)
   <-> (exists a, In a (answers req)
                  /\ (~ In (question_id a) (map q_id QUESTIONS)
                      \/ (choice a <> "A" /\ choice a <> "B"))))
  /\ (forall pre a post,
        answers req = (pre ++ a :: post)%list ->
        forallb valid_answer pre = true ->
        (~ In (question_id a) (map q_id QUESTIONS) ->
         assess create_document req db
         = (Raise (HTTPException 400
                     ("Invalid question id: " ++ str (question_id a))),
            db))
        /\ (In (question_id a) (map q_id QUESTIONS) ->
            choice a <> "A" -> choice a <> "B" ->
            assess create_document req db
            = (Raise (HTTPException 400 "Choice must be 'A' or 'B'"), db))).
Proof.
  split; [split|].
  - intros (status & detail & E & _).
    destruct (forallb valid_answer (answers req)) eqn:V.
    + destruct (assess_accepts create_document req db V)
        as (scores & doc_id & db' & R & _).
      rewrite R in E. discriminate.
    + destruct (first_invalid _ V) as (pre & a & post & Ea & _ & Na).
      exists a. split.
      * rewrite Ea. apply in_or_app. right. now left.
      * now apply valid_answer_false_iff.
  - intros (a & Ia & Off). apply valid_answer_false_iff in Off.
    destruct (assess_invalid create_document req db) as (b & _ & _ & E).
    { unfold valid_request. intros V. rewrite forallb_forall in V.
      rewrite (V a Ia) in Off. discriminate. }
    rewrite E. unfold answer_error.
    destruct (known_question (question_id b)); eexists; eexists;
      (split; [reflexivity | lia]).
  - intros pre a post Ea Vp. split.
    + intros Nin.
      rewrite (assess_first_invalid create_document req db pre post a Ea Vp).
      * unfold answer_error.
        destruct (known_question (question_id a)) eqn:Kq; [|reflexivity].
        apply known_question_In in Kq. contradiction.
      * apply valid_answer_false_iff. now left.
    + intros Iin NA NB.
      rewrite (assess_first_invalid create_document req db pre post a Ea Vp).
      * unfold answer_error. apply known_question_In in Iin.
        now rewrite Iin.
      * apply valid_answer_false_iff. now right.
Qed.

(** C4. For every valid request, when [create_document] fails with an
    error [assess] still returns, and its [scores], [top_types], [careers]
    and [summary] are those of a run whose write succeeds; only [id] is
    absent. *)
Theorem assess_persistence_failure_harmless {Store1 Store2 : Type}
    (failing : string -> Document -> Store1 -> Py string * Store1)
    (working : string -> Document -> Store2 -> Py string * Store2)
    (req : AssessmentRequest) (db1 : Store1) (db2 : Store2) :
  valid_request req ->
  (forall doc, evaluate req = Return doc ->
     exists e, fst (failing "assessmentresult" doc db1) = Raise e) ->
  (forall doc, evaluate req = Return doc ->
     exists i, fst (working "assessmentresult" doc db2) = Return i) ->
  exists r1 db1' r2 db2' i,
    assess failing req db1 = (Return r1, db1')
    /\ assess working req db2 = (Return r2, db2')
    /\ r_id r1 = None
    /\ r_id r2 = Some i
    /\ r_scores r1 = r_scores r2
    /\ r_top_types r1 = r_top_types r2
    /\ r_careers r1 = r_careers r2
    /\ r_summary r1 = r_summary r2.
Proof.
  intros V Hfail Hwork.
  destruct (assess_valid failing req db1 V) as (doc & E & R1).
  destruct (assess_valid working req db2 V) as (doc' & E' & R2).
  rewrite E in E'. injection E' as <-.
  destruct (Hfail doc E) as (e & Fe). destruct (Hwork doc E) as (i & Wi).
  rewrite Fe in R1. rewrite Wi in R2.
  do 4 eexists. exists i. split; [exact R1|]. split; [exact R2|].
  repeat split.
Qed.

(** C5. For every valid request, [careers] is built from the selected top
    categories in selection order, taking the first three titles of each
    category's [CAREER_MAP] entry and keeping a title only where it is first
    seen; so [careers] has no duplicate and at most six entries. *)
Theorem assess_careers_deduplicated {Store : Type}
    (create_document : string -> Document -> Store -> Py string * Store)
    (req : AssessmentRequest) (db : Store) :
  valid_request req ->
  exists r db',
    assess create_document req db = (Return r, db')
    /\ r_careers r
       = keep_first
           (flat_map (fun t => firstn 3 (PyDict.get_default t [] CAREER_MAP))
                     (r_top_types r))
    /\ NoDup (r_careers r)
    /\ (List.length (r_careers r) <= 6)%nat.
Proof.
  intros V.
  destruct (assess_accepts create_document req db V)
    as (scores & doc_id & db' & R & K & _).
  eexists. exists db'. split; [exact R|]. cbn [r_careers r_top_types].
  repeat split.
  - apply suggest_spec.
  - apply suggest_NoDup.
  - pose proof (suggest_length (spec_top_types scores)) as L.
    destruct (spec_top_types_shape scores K) as ([L1 | L2] & _); lia.
Qed.

(** C6. For every valid request, [top_types] has exactly one or two
    entries, each of them one of R, I, A, S, E, C, and no entry twice. *)
Theorem assess_top_types_shape {Store : Type}
    (create_document : string -> Document -> Store -> Py string * Store)
    (req : AssessmentRequest) (db : Store) :
  valid_request req ->
  exists r db',
    assess create_document req db = (Return r, db')
    /\ (List.length (r_top_types r) = 1%nat
        \/ List.length (r_top_types r) = 2%nat)
    /\ Forall (fun t => In t ["R"; "I"; "A"; "S"; "E"; "C"]) (r_top_types r)
    /\ NoDup (r_top_types r).
Proof.
  intros V.
  destruct (assess_accepts create_document req db V)
    as (scores & doc_id & db' & R & K & _).
  eexists. exists db'. split; [exact R|]. cbn [r_top_types].
  apply (spec_top_types_shape scores K).
Qed.

Lemma count_A_le_length (anss : list Answer) :
  count_A anss <= Z.of_nat (List.length anss).
Proof.
  unfold count_A. apply Nat2Z.inj_le, filter_length_le.
Qed.

(** C7, as amended.  For every request that [assess] accepts, the six
    scores add up to at most the number of answers submitted.  (The number
    of answers itself has no bound.) *)
Theorem assess_scores_bounded_by_answers {Store : Type}
    (create_document : string -> Document -> Store -> Py string * Store)
    (req : AssessmentRequest) (db db' : Store) (r : AssessmentResult) :
  assess create_document req db = (Return r, db') ->
  sum (PyDict.values (r_scores r)) <= Z.of_nat (List.length (answers req)).
Proof.
  intros E. pose proof (assess_returns_valid create_document req db db' r E) as V.
  destruct (assess_accepts create_document req db V)
    as (scores & doc_id & db'' & R & _ & _ & _ & T).
  rewrite R in E. injection E as <- _. cbn [r_scores]. rewrite T.
  apply count_A_le_length.
Qed.

Lemma get_blurb (t : string) :
  In t RIASEC -> PyDict.get t SUMMARY_BLURBS = Some (blurb_of t).
Proof.
  intros I. unfold RIASEC in I. simpl in I.
  repeat (destruct I as [<- | I]; [reflexivity|]). contradiction.
Qed.

(** C8. For every valid request, [summary] is the [SUMMARY_BLURBS]
    sentences of the selected top categories, in selection order, with one
    space between consecutive sentences: the sentence itself for one top
    type, the two sentences around a space for two. *)
Theorem assess_summary_joined {Store : Type}
    (create_document : string -> Document -> Store -> Py string * Store)
    (req : AssessmentRequest) (db : Store) :
  valid_request req ->
  exists r db',
    assess create_document req db = (Return r, db')
    /\ r_summary r = String.concat " " (map blurb_of (r_top_types r))
    /\ ((exists t b,
           r_top_types r = [t]
           /\ PyDict.get t SUMMARY_BLURBS = Some b
           /\ r_summary r = b)
        \/ (exists t1 t2 b1 b2,
              r_top_types r = [t1; t2]
              /\ PyDict.get t1 SUMMARY_BLURBS = Some b1
              /\ PyDict.get t2 SUMMARY_BLURBS = Some b2
              /\ r_summary r = b1 ++ " " ++ b2)).
Proof.
  intros V.
  destruct (assess_accepts create_document req db V)
    as (scores & doc_id & db' & R & K & _).
  eexists. exists db'. split; [exact R|]. cbn [r_summary r_top_types].
  destruct (spec_top_types_shape scores K) as (L & In6 & _).
  split.
  - reflexivity.
  - destruct (spec_top_types scores) as [|t1 [|t2 [|t3 l]]];
      simpl in L; try (destruct L; discriminate).
    + left. exists t1, (blurb_of t1). inversion In6; subst.
      repeat split. now apply get_blurb.
    + right. exists t1, t2, (blurb_of t1), (blurb_of t2).
      inversion In6 as [|? ? I1 In5]; subst. inversion In5; subst.
      repeat split; now apply get_blurb.
Qed.

Lemma serve_nth_get_questions {Store : Type}
    (create_document : string -> Document -> Store -> Py string * Store)
    (rqs : list Request) :
  forall (db : Store) (n : nat),
  nth_error rqs n = Some GetQuestions ->
  nth_error (fst (serve create_document rqs db)) n
  = Some (QuestionList get_questions).
Proof.
  induction rqs as [|rq rest IH]; intros db n E.
  - destruct n; discriminate.
  - cbn [serve].
    destruct (handle create_document rq db) as [resp db1] eqn:H.
    destruct (serve create_document rest db1) as [resps db2] eqn:S.
    destruct n as [|n]; simpl in *.
    + injection E as ->. simpl in H. now injection H as <- _.
    + specialize (IH db1 n E). now rewrite S in IH.
Qed.

(** C9. The questions endpoint returns one fixed list: an entry per
    catalog question, ids 1 to 12 in ascending order, each entry a dict with
    the keys id, text and options, options holding the labels A and B; the
    key "type" of the catalog is in no entry; and every call, whatever was
    served before it, returns this same list. *)
Theorem get_questions_fixed :
  map (field "id") get_questions
  = map (fun i => Some (PInt i)) [1; 2; 3; 4; 5; 6; 7; 8; 9; 10; 11; 12]
  /\ Forall2 (fun q e =>
                dict_keys e = ["id"; "text"; "options"]
                /\ field "id" e = Some (PInt (q_id q))
                /\ field "text" e = Some (PStr (q_text q))
                /\ field "options" e
                   = Some (PDict [("A", PStr (q_A q)); ("B", PStr (q_B q))])
                /\ field "type" e = None)
             QUESTIONS get_questions
  /\ (forall (Store : Type)
             (create_document : string -> Document -> Store -> Py string * Store)
             (rqs : list Request) (db : Store) (n : nat),
        nth_error rqs n = Some GetQuestions ->
        nth_error (fst (serve create_document rqs db)) n
        = Some (QuestionList get_questions)).
Proof.
  split; [reflexivity|]. split.
  - unfold get_questions. induction QUESTIONS as [|q qs IH]; simpl.
    + constructor.
    + constructor; [|exact IH]. repeat split.
  - intros Store create_document rqs db n.
    apply serve_nth_get_questions.
Qed.

Lemma repeat_valid (a : Answer) (n : nat) :
  valid_answer a = true -> forallb valid_answer (repeat a n) = true.
Proof.
  intros V. induction n as [|n IH]; simpl; [reflexivity|].
  now rewrite V, IH.
Qed.

Lemma count_for_repeat (c : string) (a : Answer) (n : nat) :
  agrees_with c a = true -> count_for c (repeat a n) = Z.of_nat n.
Proof.
  intros A. unfold count_for. f_equal.
  induction n as [|n IH]; simpl; [reflexivity|].
  rewrite A. simpl. now rewrite IH.
Qed.

(** C10. [assess] neither removes repeated answers nor limits their
    number: every answer with choice "A" adds 1 to the category of its
    question, again for each repetition, so that [n] answers "A" to question
    1, for any [n], give R the score [n]. *)
Theorem assess_counts_repeated_answers {Store : Type}
    (create_document : string -> Document -> Store -> Py string * Store)
    (db : Store) :
  (forall req,
     valid_request req ->
     exists r db',
       assess create_document req db = (Return r, db')
       /\ forall c, score_of (r_scores r) c = count_for c (answers req))
  /\ (forall (n : nat) (nm em : option string),
        exists r db',
          assess create_document
            (mkAssessmentRequest nm em (repeat (mkAnswer 1 "A") n)) db
          = (Return r, db')
          /\ score_of (r_scores r) "R" = Z.of_nat n).
Proof.
  split.
  - intros req V.
    destruct (assess_accepts create_document req db V)
      as (scores & doc_id & db' & R & _ & _ & S & _).
    eexists. exists db'. split; [exact R|]. exact S.
  - intros n nm em.
    destruct (assess_accepts create_document
                (mkAssessmentRequest nm em (repeat (mkAnswer 1 "A") n)) db)
      as (scores & doc_id & db' & R & _ & _ & S & _).
    { apply repeat_valid. reflexivity. }
    eexists. exists db'. split; [exact R|]. cbn [r_scores].
    rewrite S. apply count_for_repeat. reflexivity.
Qed.

(** ** The properties at work on the example requests *)

Lemma assess_top_types_selection_witness :
  valid_request request_tie_RI
  /\ exists r db',
       assess store_down request_tie_RI tt = (Return r, db')
       /\ r_top_types r = ["R"; "I"].
Proof.
  split; [reflexivity|].
  destruct (assess_top_types_selection store_down request_tie_RI tt eq_refl)
    as (r & db' & R & P & _).
  exists r, db'. split; [exact R|].
  vm_compute in R. injection R as <- <-.
  rewrite P; [reflexivity|].
  exists "R". split; [now left | reflexivity].
Defined.

Lemma assess_scores_count_A_witness :
  valid_request request_R_only
  /\ exists r db',
       assess store_down request_R_only tt = (Return r, db')
       /\ PyDict.keys (r_scores r) = ["R"; "I"; "A"; "S"; "E"; "C"]
       /\ sum (PyDict.values (r_scores r)) = 2
       /\ score_of (r_scores r) "R" = 2.
Proof.
  split; [reflexivity|].
  destruct (assess_scores_count_A store_down request_R_only tt eq_refl)
    as (r & db' & R & K & _ & T & S).
  exists r, db'. repeat split; [exact R | exact K | exact T | exact (S "R")].
Defined.

Lemma assess_rejects_first_offending_witness :
  forallb valid_answer [mkAnswer 12 "A"] = true
  /\ ~ In 999 (map q_id QUESTIONS)
  /\ assess store_down request_offending tt
     = (Raise (HTTPException 400 "Invalid question id: 999"), tt).
Proof.
  assert (N : ~ In 999 (map q_id QUESTIONS)) by (simpl; lia).
  split; [reflexivity|]. split; [exact N|].
  exact (proj1 (proj2 (assess_rejects_first_offending
                         store_down request_offending tt)
                  [mkAnswer 12 "A"] (mkAnswer 999 "C") [mkAnswer 3 "C"]
                  eq_refl eq_refl) N).
Defined.

Lemma assess_persistence_failure_harmless_witness :
  valid_request request_tie_RI
  /\ exists r1 db1' r2 db2' i,
       assess store_down request_tie_RI tt = (Return r1, db1')
       /\ assess store_in_memory request_tie_RI [] = (Return r2, db2')
       /\ r_id r1 = None
       /\ r_id r2 = Some i
       /\ r_scores r1 = r_scores r2
       /\ r_top_types r1 = r_top_types r2
       /\ r_careers r1 = r_careers r2
       /\ r_summary r1 = r_summary r2.
Proof.
  split; [reflexivity|].
  apply (assess_persistence_failure_harmless
           store_down store_in_memory request_tie_RI tt []).
  - reflexivity.
  - intros doc _. eexists. reflexivity.
  - intros doc _. eexists. reflexivity.
Defined.

Lemma assess_careers_deduplicated_witness :
  valid_request request_tie_RI
  /\ exists r db',
       assess store_down request_tie_RI tt = (Return r, db')
       /\ r_careers r
          = ["Mechanical Engineer"; "Electrician"; "Carpenter";
             "Data Scientist"; "Research Analyst"; "Software Developer"]
       /\ NoDup (r_careers r).
Proof.
  split; [reflexivity|].
  destruct (assess_careers_deduplicated store_down request_tie_RI tt eq_refl)
    as (r & db' & R & C & N & _).
  exists r, db'. repeat split; [exact R | | exact N].
  rewrite C. vm_compute in R. injection R as <- <-. reflexivity.
Defined.

Lemma assess_top_types_shape_witness :
  valid_request request_all_B
  /\ exists r db',
       assess store_down request_all_B tt = (Return r, db')
       /\ (List.length (r_top_types r) = 1%nat
           \/ List.length (r_top_types r) = 2%nat)
       /\ NoDup (r_top_types r).
Proof.
  split; [reflexivity|].
  destruct (assess_top_types_shape store_down request_all_B tt eq_refl)
    as (r & db' & R & L & _ & N).
  exists r, db'. repeat split; assumption.
Defined.

(** C7, as the specification states it, fails: thirteen answers are
    accepted, and the scores add up to 13. *)
Lemma assess_accepts_thirteen_answers :
  exists r,
    assess store_down request_thirteen tt = (Return r, tt)
    /\ ~ (sum (PyDict.values (r_scores r))
            <= Z.of_nat (List.length (answers request_thirteen))
          /\ Z.of_nat (List.length (answers request_thirteen)) <= 12).
Proof.
  eexists. split; [vm_compute; reflexivity|].
  vm_compute. intros [_ H]. apply H. reflexivity.
Qed.

Lemma assess_scores_bounded_by_answers_witness :
  exists r,
    assess store_down request_thirteen tt = (Return r, tt)
    /\ sum (PyDict.values (r_scores r)) <= 13.
Proof.
  eexists. split; [vm_compute; reflexivity|].
  apply (assess_scores_bounded_by_answers store_down request_thirteen tt tt).
  vm_compute. reflexivity.
Defined.

Lemma assess_summary_joined_witness :
  valid_request request_tie_RI
  /\ exists r db',
       assess store_down request_tie_RI tt = (Return r, db')
       /\ r_summary r
          = "Hands-on, practical, and mechanical. You enjoy building, fixing, and working with tools."
            ++ " "
            ++ "Analytical and curious. You enjoy research, problem-solving, and understanding how things work.".
Proof.
  split; [reflexivity|].
  destruct (assess_summary_joined store_down request_tie_RI tt eq_refl)
    as (r & db' & R & S & _).
  exists r, db'. split; [exact R|].
  rewrite S. vm_compute in R. injection R as <- <-. reflexivity.
Defined.

Lemma get_questions_fixed_witness :
  nth_error requests_in_a_row 2 = Some GetQuestions
  /\ nth_error (fst (serve store_in_memory requests_in_a_row [])) 2
     = nth_error (fst (serve store_in_memory requests_in_a_row [])) 0.
Proof.
  split; [reflexivity|].
  destruct get_questions_fixed as (_ & _ & Same).
  rewrite (Same _ store_in_memory requests_in_a_row [] 2%nat eq_refl).
  rewrite (Same _ store_in_memory requests_in_a_row [] 0%nat eq_refl).
  reflexivity.
Defined.

Lemma assess_counts_repeated_answers_witness :
  valid_request request_thirteen
  /\ (exists r db',
        assess store_down request_thirteen tt = (Return r, db')
        /\ score_of (r_scores r) "R" = 13)
  /\ (exists r db',
        assess store_down
          (mkAssessmentRequest None None [mkAnswer 1 "A"; mkAnswer 1 "A"]) tt
        = (Return r, db')
        /\ score_of (r_scores r) "R" = 2).
Proof.
  split; [reflexivity|]. split.
  - destruct (proj1 (assess_counts_repeated_answers store_down tt)
                request_thirteen eq_refl) as (r & db' & R & S).
    exists r, db'. split; [exact R | exact (S "R")].
  - exact (proj2 (assess_counts_repeated_answers store_down tt) 2%nat None None).
Defined.

(** ** Further properties of [assess] *)

Lemma filter_length_perm {X : Type} (f : X -> bool) (l l' : list X) :
  Permutation l l' ->
  List.length (filter f l) = List.length (filter f l').
Proof.
  induction 1 as [|x l l' _ IH|x y l|l l' l'' _ IH1 _ IH2]; simpl.
  - reflexivity.
  - destruct (f x); simpl; now rewrite IH.
  - now destruct (f x), (f y).
  - now rewrite IH1.
Qed.

Lemma forallb_perm {X : Type} (f : X -> bool) (l l' : list X) :
  Permutation l l' -> forallb f l = true -> forallb f l' = true.
Proof.
  intros P F. rewrite forallb_forall in *. intros x Ix.
  apply F. now apply (Permutation_in _ (Permutation_sym P)).
Qed.

(** Two dictionaries with the same distinct keys, in the same order, and
    the same score under each key are the same dictionary. *)
Lemma dict_ext (d1 : PyDict.t string Z) :
  forall d2 : PyDict.t string Z,
  PyDict.keys d1 = PyDict.keys d2 ->
  NoDup (PyDict.keys d1) ->
  (forall c, In c (PyDict.keys d1) -> score_of d1 c = score_of d2 c) ->
  d1 = d2.
Proof.
  unfold PyDict.keys, score_of, PyDict.get_default.
  induction d1 as [|[k1 v1] r1 IH]; intros [|[k2 v2] r2] K N S;
    try discriminate; [reflexivity|].
  simpl in K. injection K as <- K. inversion N as [|? ? Nin N']; subst.
  pose proof (S k1 (or_introl eq_refl)) as S1. simpl in S1.
  rewrite String.eqb_refl in S1. subst v2. f_equal.
  apply IH; [exact K | exact N' |].
  intros c Ic. specialize (S c (or_intror Ic)). simpl in S.
  destruct (String.eqb_spec c k1) as [E | _]; [|exact S].
  rewrite E in Ic. contradiction.
Qed.

(** The result of an accepted request is a function of its per-category
    counts of "A" answers. *)
Lemma same_counts_same_result {Store1 Store2 : Type}
    (cd1 : string -> Document -> Store1 -> Py string * Store1)
    (cd2 : string -> Document -> Store2 -> Py string * Store2)
    (req1 req2 : AssessmentRequest) (db1 : Store1) (db2 : Store2) :
  valid_request req1 -> valid_request req2 ->
  (forall c, count_for c (answers req1) = count_for c (answers req2)) ->
  exists r1 db1' r2 db2',
    assess cd1 req1 db1 = (Return r1, db1')
    /\ assess cd2 req2 db2 = (Return r2, db2')
    /\ r_scores r1 = r_scores r2
    /\ r_top_types r1 = r_top_types r2
    /\ r_careers r1 = r_careers r2
    /\ r_summary r1 = r_summary r2.
Proof.
  intros V1 V2 C.
  destruct (assess_accepts cd1 req1 db1 V1)
    as (s1 & i1 & db1' & R1 & K1 & _ & S1 & _).
  destruct (assess_accepts cd2 req2 db2 V2)
    as (s2 & i2 & db2' & R2 & K2 & _ & S2 & _).
  assert (E : s1 = s2).
  { apply dict_ext.
    - congruence.
    - rewrite K1. apply RIASEC_NoDup.
    - intros c _. now rewrite S1, S2. }
  subst s2. do 4 eexists. split; [exact R1|]. split; [exact R2|].
  repeat split.
Qed.

(** X1. The result does not depend on the order of the answers, nor on the
    name and e-mail sent with them: two accepted requests whose answer
    lists are permutations of each other get the same [scores],
    [top_types], [careers] and [summary], whatever the store does. *)
Theorem assess_order_independent {Store1 Store2 : Type}
    (cd1 : string -> Document -> Store1 -> Py string * Store1)
    (cd2 : string -> Document -> Store2 -> Py string * Store2)
    (req1 req2 : AssessmentRequest) (db1 : Store1) (db2 : Store2) :
  valid_request req1 ->
  Permutation (answers req1) (answers req2) ->
  exists r1 db1' r2 db2',
    assess cd1 req1 db1 = (Return r1, db1')
    /\ assess cd2 req2 db2 = (Return r2, db2')
    /\ r_scores r1 = r_scores r2
    /\ r_top_types r1 = r_top_types r2
    /\ r_careers r1 = r_careers r2
    /\ r_summary r1 = r_summary r2.
Proof.
  intros V P. apply same_counts_same_result.
  - exact V.
  - unfold valid_request. now apply (forallb_perm _ _ _ P).
  - intros c. unfold count_for. f_equal. now apply filter_length_perm.
Qed.

Lemma filter_idem_and {X : Type} (f g : X -> bool) (l : list X) :
  (forall x, f x = true -> g x = true) ->
  filter f (filter g l) = filter f l.
Proof.
  intros I. apply filter_filter_ext. intros x.
  destruct (f x) eqn:F; [|reflexivity]. now rewrite (I x F).
Qed.

(** X2. "B" answers count for nothing: an accepted request and the same
    request without its "B" answers get the same [scores], [top_types],
    [careers] and [summary]. *)
Theorem assess_ignores_B_answers {Store : Type}
    (create_document : string -> Document -> Store -> Py string * Store)
    (req : AssessmentRequest) (db : Store) :
  valid_request req ->
  exists r db' r' db'',
    assess create_document req db = (Return r, db')
    /\ assess create_document (only_A req) db = (Return r', db'')
    /\ r_scores r = r_scores r'
    /\ r_top_types r = r_top_types r'
    /\ r_careers r = r_careers r'
    /\ r_summary r = r_summary r'.
Proof.
  intros V. apply same_counts_same_result.
  - exact V.
  - unfold valid_request, only_A in *. cbn [answers].
    rewrite forallb_forall in *. intros a Ia. apply filter_In in Ia.
    now apply V.
  - intros c. unfold count_for, only_A. cbn [answers]. do 2 f_equal.
    symmetry. apply filter_idem_and. intros a A. unfold agrees_with in A.
    now apply andb_true_iff in A.
Qed.

(** X3. What is stored is what is returned: for an accepted request
    [create_document] is called once, on the collection "assessmentresult",
    with a document that carries the name and e-mail of the request and the
    very [scores], [top_types], [careers] and [summary] of the response; the
    response's [id] is the identifier that call returned, or none if it
    raised; and the store afterwards is the one that call left. *)
Theorem assess_persists_what_it_returns {Store : Type}
    (create_document : string -> Document -> Store -> Py string * Store)
    (req : AssessmentRequest) (db : Store) :
  valid_request req ->
  exists doc r,
    assess create_document req db
    = (Return r, snd (create_document "assessmentresult" doc db))
    /\ doc_name doc = name req
    /\ doc_email doc = email req
    /\ doc_scores doc = r_scores r
    /\ doc_top_types doc = r_top_types r
    /\ doc_careers doc = r_careers r
    /\ doc_summary doc = r_summary r
    /\ r_id r = match fst (create_document "assessmentresult" doc db) with
                | Return i => Some i
                | Raise _ => None
                end.
Proof.
  intros V.
  destruct (evaluate_valid req V) as (scores & _ & _ & _ & _ & _ & E).
  destruct (assess_valid create_document req db V) as (doc & E' & R).
  rewrite E in E'. injection E' as <-.
  eexists. eexists. split; [exact R|]. repeat split.
Qed.

Lemma NoDup_map_filter {X Y : Type} (f : X -> Y) (p : X -> bool) (l : list X) :
  NoDup (map f l) -> NoDup (map f (filter p l)).
Proof.
  induction l as [|x xs IH]; simpl; intros N; [constructor|].
  inversion N as [|? ? Nin N']; subst.
  destruct (p x); simpl; [|now apply IH].
  constructor; [|now apply IH].
  intros I. apply Nin. apply in_map_iff in I. destruct I as (y & E & Iy).
  apply filter_In in Iy. rewrite <- E. apply in_map. tauto.
Qed.

Lemma questions_of_length (c : string) :
  In c RIASEC -> List.length (questions_of c) = 2%nat.
Proof.
  intros I. unfold RIASEC in I. simpl in I.
  repeat (destruct I as [<- | I]; [reflexivity|]). contradiction.
Qed.

(** With distinct question ids, a category gets at most one "A" per
    question it has. *)
Lemma count_for_distinct (c : string) (anss : list Answer) :
  NoDup (map question_id anss) ->
  count_for c anss <= Z.of_nat (List.length (questions_of c)).
Proof.
  intros N. unfold count_for. apply Nat2Z.inj_le.
  rewrite <- (length_map question_id), <- (length_map q_id (questions_of c)).
  apply NoDup_incl_length; [now apply NoDup_map_filter|].
  intros i Ii. apply in_map_iff in Ii. destruct Ii as (a & <- & Ia).
  apply filter_In in Ia. destruct Ia as [_ Ag]. unfold agrees_with in Ag.
  apply andb_true_iff in Ag. destruct Ag as [_ Ag].
  destruct (lookup_question (question_id a)) as [q|] eqn:L; [|discriminate].
  unfold lookup_question in L. apply find_some in L. destruct L as [Iq Eq].
  apply Z.eqb_eq in Eq. rewrite Eq. apply in_map.
  unfold questions_of. apply filter_In. now split.
Qed.

Lemma valid_ids_listed (anss : list Answer) :
  forallb valid_answer anss = true ->
  incl (map question_id anss) (map q_id QUESTIONS).
Proof.
  intros V i Ii. apply in_map_iff in Ii. destruct Ii as (a & <- & Ia).
  rewrite forallb_forall in V. now apply valid_answer_iff, V.
Qed.

(** X4. When no question is answered twice, the limits of the
    questionnaire hold: such an accepted request has at most 12 answers,
    every category score is between 0 and 2, and the scores add up to at
    most 12. *)
Theorem assess_distinct_questions_bounds {Store : Type}
    (create_document : string -> Document -> Store -> Py string * Store)
    (req : AssessmentRequest) (db : Store) :
  valid_request req ->
  NoDup (map question_id (answers req)) ->
  exists r db',
    assess create_document req db = (Return r, db')
    /\ (List.length (answers req) <= 12)%nat
    /\ Forall (fun v => 0 <= v <= 2) (PyDict.values (r_scores r))
    /\ sum (PyDict.values (r_scores r)) <= 12.
Proof.
  intros V N.
  destruct (assess_accepts create_document req db V)
    as (scores & doc_id & db' & R & K & F & S & T).
  assert (L : (List.length (answers req) <= 12)%nat).
  { rewrite <- (length_map question_id).
    change 12%nat with (List.length (map q_id QUESTIONS)).
    apply NoDup_incl_length; [exact N | now apply valid_ids_listed]. }
  eexists. exists db'. split; [exact R|]. cbn [r_scores]. repeat split.
  - exact L.
  - apply Forall_forall. intros v Iv. split.
    + rewrite Forall_forall in F. now apply F.
    + destruct (in_values_score v scores) as (c & Ic & <-); [|exact Iv|].
      { rewrite K. apply RIASEC_NoDup. }
      rewrite S. rewrite K in Ic.
      pose proof (count_for_distinct c (answers req) N) as B.
      rewrite (questions_of_length c Ic) in B. exact B.
  - rewrite T. pose proof (count_A_le_length (answers req)). lia.
Qed.

(** On one or two distinct categories the de-duplication never fires. *)
Lemma suggest_distinct_categories (top_types : list string) :
  Forall (fun t => In t RIASEC) top_types ->
  NoDup top_types ->
  (List.length top_types <= 2)%nat ->
  suggest top_types
  = flat_map (fun t => firstn 3 (PyDict.get_default t [] CAREER_MAP)) top_types
  /\ List.length (suggest top_types) = (3 * List.length top_types)%nat.
Proof.
  intros F N L.
  destruct top_types as [|t1 [|t2 [|t3 l]]]; simpl in L; try lia.
  - split; reflexivity.
  - inversion F as [|? ? I1 _]; subst. unfold RIASEC in I1. simpl in I1.
    repeat (destruct I1 as [<- | I1]; [split; reflexivity|]). contradiction.
  - inversion F as [|? ? I1 F']; subst. inversion F' as [|? ? I2 _]; subst.
    inversion N as [|? ? Nin _]; subst.
    unfold RIASEC in I1, I2. simpl in I1, I2.
    repeat (destruct I1 as [<- | I1]; [|]); try contradiction;
      repeat (destruct I2 as [<- | I2]; [|]); try contradiction;
      first [ split; reflexivity | exfalso; apply Nin; now left ].
Qed.

(** X5. For every valid request [careers] holds exactly the first three
    titles of each selected category, in selection order: three titles for
    one top type, six for two; no title of [CAREER_MAP] is ever dropped as a
    duplicate. *)
Theorem assess_three_careers_per_top_type {Store : Type}
    (create_document : string -> Document -> Store -> Py string * Store)
    (req : AssessmentRequest) (db : Store) :
  valid_request req ->
  exists r db',
    assess create_document req db = (Return r, db')
    /\ r_careers r
       = flat_map (fun t => firstn 3 (PyDict.get_default t [] CAREER_MAP))
                  (r_top_types r)
    /\ List.length (r_careers r) = (3 * List.length (r_top_types r))%nat.
Proof.
  intros V.
  destruct (assess_accepts create_document req db V)
    as (scores & doc_id & db' & R & K & _).
  eexists. exists db'. split; [exact R|]. cbn [r_careers r_top_types].
  destruct (spec_top_types_shape scores K) as (L & F & N).
  apply suggest_distinct_categories; [exact F | exact N | lia].
Qed.

Lemma score_of_initial (c : string) : score_of initial_scores c = 0.
Proof.
  unfold score_of, PyDict.get_default, initial_scores. simpl.
  repeat match goal with |- context [(c =? ?k)%string] =>
    destruct (c =? k)%string; [reflexivity|] end.
  reflexivity.
Qed.

(** X6. With no "A" among its answers (all "B", or no answer at all) an
    accepted request gets the fallback result: every score 0, the single top
    type "R", the first three R careers and the R sentence. *)
Theorem assess_without_A_answers {Store : Type}
    (create_document : string -> Document -> Store -> Py string * Store)
    (req : AssessmentRequest) (db : Store) :
  valid_request req ->
  (forall a, In a (answers req) -> choice a = "B") ->
  exists r db',
    assess create_document req db = (Return r, db')
    /\ r_scores r
       = [("R", 0); ("I", 0); ("A", 0); ("S", 0); ("E", 0); ("C", 0)]
    /\ r_top_types r = ["R"]
    /\ r_careers r = ["Mechanical Engineer"; "Electrician"; "Carpenter"]
    /\ r_summary r
       = "Hands-on, practical, and mechanical. You enjoy building, fixing, and working with tools.".
Proof.
  intros V B.
  destruct (assess_accepts create_document req db V)
    as (scores & doc_id & db' & R & K & _ & S & _).
  assert (E : scores = initial_scores).
  { apply dict_ext.
    - rewrite K. reflexivity.
    - rewrite K. apply RIASEC_NoDup.
    - intros c _. rewrite S, score_of_initial. unfold count_for.
      rewrite (filter_none (agrees_with c)); [reflexivity|].
      intros a Ia. unfold agrees_with. now rewrite (B a Ia). }
  subst scores. eexists. exists db'. split; [exact R|]. repeat split.
Qed.

Lemma maximum_ge (y : Z) (zs : list Z) : In y zs -> y <= maximum zs.
Proof.
  destruct zs as [|z rest]; [contradiction|].
  intros I. now apply (proj2 (maximum_spec z rest)).
Qed.

Lemma in_firstn {X : Type} (n : nat) (x : X) (l : list X) :
  In x (firstn n l) -> In x l.
Proof.
  intros I. rewrite <- (firstn_skipn n l). apply in_or_app. now left.
Qed.

(** Every selected category carries the maximum score. *)
Lemma spec_top_types_max (scores : PyDict.t string Z) (t : string) :
  PyDict.keys scores = RIASEC ->
  Forall (fun x => 0 <= x) (PyDict.values scores) ->
  In t (spec_top_types scores) ->
  score_of scores t = maximum (PyDict.values scores).
Proof.
  intros K F. unfold spec_top_types.
  destruct (existsb _ RIASEC) eqn:Ex.
  - intros I. apply in_firstn, filter_In in I. destruct I as [_ P].
    apply andb_true_iff in P. destruct P as [P _]. now apply Z.eqb_eq in P.
  - intros [<- | []]. symmetry. apply maximum_unique.
    + apply score_in_values. rewrite K. now left.
    + intros y Iy.
      destruct (in_values_score y scores) as (c & Ic & <-); [|exact Iy|].
      { rewrite K. apply RIASEC_NoDup. }
      rewrite K in Ic.
      pose proof (score_of_nonneg "R" scores F) as PR.
      destruct (score_of scores c >? 0) eqn:Pc.
      * assert (existsb (fun c => score_of scores c >? 0) RIASEC = true);
          [|congruence].
        apply existsb_exists. exists c. now split.
      * rewrite Z.gtb_ltb in Pc. apply Z.ltb_ge in Pc. lia.
Qed.

(** X7. No category outscores a selected one: for every valid request,
    each top type has a score at least that of every category, and two top
    types have the same score. *)
Theorem assess_top_types_have_max_score {Store : Type}
    (create_document : string -> Document -> Store -> Py string * Store)
    (req : AssessmentRequest) (db : Store) :
  valid_request req ->
  exists r db',
    assess create_document req db = (Return r, db')
    /\ (forall t c, In t (r_top_types r) -> In c RIASEC ->
          score_of (r_scores r) c <= score_of (r_scores r) t)
    /\ (forall t1 t2, In t1 (r_top_types r) -> In t2 (r_top_types r) ->
          score_of (r_scores r) t1 = score_of (r_scores r) t2).
Proof.
  intros V.
  destruct (assess_accepts create_document req db V)
    as (scores & doc_id & db' & R & K & F & _).
  eexists. exists db'. split; [exact R|]. cbn [r_scores r_top_types]. split.
  - intros t c It Ic. rewrite (spec_top_types_max scores t K F It).
    apply maximum_ge, score_in_values. now rewrite K.
  - intros t1 t2 I1 I2.
    now rewrite (spec_top_types_max scores t1 K F I1),
                (spec_top_types_max scores t2 K F I2).
Qed.

(** X8. A category that strictly outscores the five others is the only
    top type. *)
Theorem assess_unique_maximum_single_top_type {Store : Type}
    (create_document : string -> Document -> Store -> Py string * Store)
    (req : AssessmentRequest) (db : Store) :
  valid_request req ->
  exists r db',
    assess create_document req db = (Return r, db')
    /\ forall c,
         In c RIASEC ->
         (forall c', In c' RIASEC -> c' <> c ->
            score_of (r_scores r) c' < score_of (r_scores r) c) ->
         r_top_types r = [c].
Proof.
  intros V.
  destruct (assess_accepts create_document req db V)
    as (scores & doc_id & db' & R & K & F & _).
  eexists. exists db'. split; [exact R|]. cbn [r_scores r_top_types].
  intros c Ic Strict.
  destruct (spec_top_types_shape scores K) as (L & In6 & N).
  assert (Only : forall t, In t (spec_top_types scores) -> t = c).
  { intros t It. destruct (string_dec t c) as [E | NE]; [exact E|].
    rewrite Forall_forall in In6.
    pose proof (Strict t (In6 t It) NE) as Lt.
    rewrite (spec_top_types_max scores t K F It) in Lt.
    assert (score_of scores c <= maximum (PyDict.values scores)); [|lia].
    apply maximum_ge, score_in_values. now rewrite K. }
  destruct (spec_top_types scores) as [|t1 [|t2 l]].
  - simpl in L. destruct L; discriminate.
  - f_equal. apply Only. now left.
  - exfalso. inversion N as [|? ? Nin _]; subst. apply Nin.
    rewrite (Only t1), (Only t2); [now left | right; now left | now left].
Qed.

Lemma known_question_range (i : Z) :
  known_question i = true <-> 1 <= i <= 12.
Proof.
  rewrite known_question_In. simpl. lia.
Qed.

(** X9. [assess] accepts a request exactly when every answer has a
    question id from 1 to 12 and the choice "A" or "B". *)
Theorem assess_accepts_iff_in_range {Store : Type}
    (create_document : string -> Document -> Store -> Py string * Store)
    (req : AssessmentRequest) (db : Store) :
  (exists r db', assess create_document req db = (Return r, db'))
  <-> (forall a, In a (answers req) ->
         1 <= question_id a <= 12 /\ (choice a = "A" \/ choice a = "B")).
Proof.
  split.
  - intros (r & db' & R) a Ia.
    pose proof (assess_returns_valid create_document req db db' r R) as V.
    unfold valid_request in V. rewrite forallb_forall in V.
    specialize (V a Ia). unfold valid_answer in V.
    apply andb_true_iff in V. destruct V as [Kq Vc].
    split; [now apply known_question_range | now apply valid_choice_iff].
  - intros A.
    assert (V : valid_request req).
    { unfold valid_request. apply forallb_forall. intros a Ia.
      destruct (A a Ia) as [Rg Ch]. unfold valid_answer.
      apply andb_true_iff.
      split; [now apply known_question_range | now apply valid_choice_iff]. }
    destruct (assess_accepts create_document req db V)
      as (scores & doc_id & db' & R & _).
    eauto.
Qed.

(** X10. The two endpoints fit: a client that answers each question
    listed by [get_questions] once, with "A" or "B", is accepted, and the
    score of each category is the number of its two questions that were
    answered "A". *)
Theorem assess_accepts_listed_questions {Store : Type}
    (create_document : string -> Document -> Store -> Py string * Store)
    (pick : Z -> string) (nm em : option string) (db : Store) :
  (forall i, pick i = "A" \/ pick i = "B") ->
  exists r db',
    assess create_document
      (mkAssessmentRequest nm em (answer_all pick get_questions)) db
    = (Return r, db')
    /\ forall c, In c RIASEC ->
         score_of (r_scores r) c
         = Z.of_nat (List.length
                       (filter (fun q => (pick (q_id q) =? "A")%string)
                               (questions_of c))).
Proof.
  intros P.
  assert (V : valid_request
                (mkAssessmentRequest nm em (answer_all pick get_questions))).
  { unfold valid_request. cbn [answers]. apply forallb_forall.
    intros a Ia. unfold answer_all in Ia. apply in_map_iff in Ia.
    destruct Ia as (i & <- & Ii). unfold valid_answer. cbn [question_id choice].
    apply andb_true_iff. split.
    - apply known_question_range.
      change (listed_ids get_questions)
        with [1; 2; 3; 4; 5; 6; 7; 8; 9; 10; 11; 12] in Ii.
      simpl in Ii. lia.
    - now apply valid_choice_iff. }
  destruct (assess_accepts create_document _ db V)
    as (scores & doc_id & db' & R & _ & _ & S & _).
  eexists. exists db'. split; [exact R|]. cbn [r_scores].
  intros c Ic. rewrite S. cbn [answers]. unfold count_for. f_equal.
  unfold RIASEC in Ic. simpl in Ic.
  repeat (destruct Ic as [<- | Ic];
          [ unfold agrees_with, lookup_question; cbn;
            rewrite ?andb_false_r, ?andb_true_r;
            repeat match goal with
                   | |- context [(pick ?i =? "A")%string] =>
                       destruct (pick i =? "A")%string
                   end;
            reflexivity |]).
  contradiction.
Qed.

(** ** Properties of [test_database] *)

Lemma take_chars_count (s : string) :
  forall n, (char_count (take_chars n s) <= n)%nat.
Proof.
  induction s as [|b rest IH]; intros n; simpl; [lia|].
  destruct (is_continuation b) eqn:C; simpl.
  - rewrite C. apply IH.
  - destruct n as [|n]; simpl; [lia|]. rewrite C.
    specialize (IH n). lia.
Qed.

Lemma take_chars_prefix (s : string) :
  forall n, exists rest, s = take_chars n s ++ rest.
Proof.
  induction s as [|b rest IH]; intros n; simpl.
  - now exists "".
  - destruct (is_continuation b).
    + destruct (IH n) as (r & E). exists r. simpl. now rewrite <- E.
    + destruct n as [|n].
      * now exists (String b rest).
      * destruct (IH n) as (r & E). exists r. simpl. now rewrite <- E.
Qed.

Lemma take_chars_all (s : string) :
  forall n, (char_count s <= n)%nat -> take_chars n s = s.
Proof.
  induction s as [|b rest IH]; intros n; simpl; [reflexivity|].
  destruct (is_continuation b); intros L.
  - now rewrite IH.
  - destruct n as [|n]; [lia|]. rewrite IH; [reflexivity | lia].
Qed.


Ltac diagnose db :=
  destruct db as [[[[?v | ?e] |] [?names | ?e]] |].

(** X11. The diagnostics endpoint never fails: whatever the store object
    does (absent, name unreadable, listing raising) and whatever the
    environment holds, it returns a dict with the six keys backend,
    database, database_url, database_name, connection_status and
    collections, in this order, and reports the backend as running. *)
Theorem test_database_never_raises
    (exception_str : PyException -> string) (db : option Database)
    (getenv : string -> option string) :
  exists response,
    test_database exception_str db getenv = Return (PDict response)
    /\ PyDict.keys response
       = ["backend"; "database"; "database_url"; "database_name";
          "connection_status"; "collections"]
    /\ PyDict.get "backend" response = Some (PStr "✅ Running").
Proof.
  diagnose db; eexists; repeat split.
Qed.

(** X12. The fields database_url and database_name of the diagnostics say
    only whether the environment variables DATABASE_URL and DATABASE_NAME
    are set to a non-empty value: "✅ Set" or "❌ Not Set".  The store has
    no influence on them: what the handler first writes there ("✅
    Configured", the store's name) is always overwritten. *)
Theorem test_database_reports_environment
    (exception_str : PyException -> string) (db : option Database)
    (getenv : string -> option string) :
  exists resp,
    test_database exception_str db getenv = Return resp
    /\ field "database_url" resp
       = Some (PStr (match getenv "DATABASE_URL" with
                     | None | Some "" => "❌ Not Set"
                     | Some _ => "✅ Set"
                     end))
    /\ field "database_name" resp
       = Some (PStr (match getenv "DATABASE_NAME" with
                     | None | Some "" => "❌ Not Set"
                     | Some _ => "✅ Set"
                     end)).
Proof.
  diagnose db; eexists; (split; [reflexivity|]);
    cbn; unfold env_truthy;
    destruct (getenv "DATABASE_URL") as [[|? ?]|];
    destruct (getenv "DATABASE_NAME") as [[|? ?]|];
    split; reflexivity.
Qed.

(** X13. The diagnostics list at most ten collections: the first ten
    names the store lists, in the store's order, and none when there is no
    store or a call on it raised. *)
Theorem test_database_caps_collections
    (exception_str : PyException -> string) (db : option Database)
    (getenv : string -> option string) :
  exists resp,
    test_database exception_str db getenv = Return resp
    /\ field "collections" resp
       = Some (PList (map PStr (firstn 10 (collections_seen db))))
    /\ (List.length (firstn 10 (collections_seen db)) <= 10)%nat.
Proof.
  assert (L : (List.length (firstn 10 (collections_seen db)) <= 10)%nat).
  { rewrite length_firstn. lia. }
  diagnose db; eexists; (split; [reflexivity|]); (split; [reflexivity | exact L]).
Qed.


(** X15. A failure of the listing is rendered, not propagated: when the
    store's name can be read and [list_collection_names] raises [e], the
    response has database "⚠️  Connected but Error: " followed by the first
    characters of [str(e)], at most 50 of them and all of them when
    [str(e)] is that short; the connection still counts as "Connected" and
    no collection is listed. *)
Theorem test_database_renders_listing_failure
    (exception_str : PyException -> string) (h : Database) (e : PyException)
    (getenv : string -> option string) :
  name_readable h ->
  list_collection_names h = Raise e ->
  exists resp text,
    test_database exception_str (Some h) getenv = Return resp
    /\ field "database" resp
       = Some (PStr ("⚠️  Connected but Error: " ++ text))
    /\ (exists rest, exception_str e = text ++ rest)
    /\ (char_count text <= 50)%nat
    /\ ((char_count (exception_str e) <= 50)%nat -> text = exception_str e)
    /\ field "connection_status" resp = Some (PStr "Connected")
    /\ field "collections" resp = Some (PList []).
Proof.
  intros Rd L. destruct h as [[[v | e'] |] listing]; simpl in L; subst listing;
    try (exfalso; eapply Rd; reflexivity);
    eexists; exists (take_chars 50 (exception_str e));
    (split; [reflexivity|]); (split; [reflexivity|]);
    (split; [apply take_chars_prefix|]);
    (split; [apply take_chars_count|]);
    (split; [apply take_chars_all|]);
    split; reflexivity.
Qed.


(** X17. The values the response starts with, and the first ones written
    on the way, never reach the caller: database is never "❌ Not
    Available" nor "✅ Available", and database_url and database_name are
    never null. *)
Theorem test_database_overwrites_placeholders
    (exception_str : PyException -> string) (db : option Database)
    (getenv : string -> option string) :
  exists resp,
    test_database exception_str db getenv = Return resp
    /\ field "database" resp <> Some (PStr "❌ Not Available")
    /\ field "database" resp <> Some (PStr "✅ Available")
    /\ field "database_url" resp <> Some PNone
    /\ field "database_name" resp <> Some PNone.
Proof.
  diagnose db; eexists; (split; [reflexivity|]); cbn;
    repeat split; discriminate.
Qed.

(** X18. Over any sequence of requests the store is written once for each
    accepted assessment, in the order of the requests, with the document of
    that assessment; the questions endpoint and rejected assessments leave
    it alone. *)
Theorem serve_stores_accepted_assessments {Store : Type}
    (create_document : string -> Document -> Store -> Py string * Store)
    (rqs : list Request) (db : Store) :
  snd (serve create_document rqs db)
  = fold_left (fun db doc => snd (create_document "assessmentresult" doc db))
              (accepted_documents rqs) db.
Proof.
  revert db. induction rqs as [|rq rest IH]; intros db; [reflexivity|].
  cbn [serve]. unfold accepted_documents. cbn [flat_map].
  rewrite fold_left_app. fold (accepted_documents rest).
  destruct (handle create_document rq db) as [resp db1] eqn:H.
  specialize (IH db1).
  destruct (serve create_document rest db1) as [resps db2].
  cbn [snd] in *. rewrite IH. f_equal.
  destruct rq as [|req]; cbn [handle] in H.
  - now injection H as _ <-.
  - unfold assess in H. destruct (evaluate req) as [doc | e]; cbn [fold_left].
    + destruct (create_document "assessmentresult" doc db) as [outcome db'].
      now injection H as _ <-.
    + now injection H as _ <-.
Qed.

(** ** The further properties at work on examples *)

Lemma assess_order_independent_witness :
  valid_request request_tie_RI
  /\ Permutation (answers request_tie_RI) (answers request_tie_RI_reversed)
  /\ exists r1 db1' r2 db2',
       assess store_down request_tie_RI tt = (Return r1, db1')
       /\ assess store_in_memory request_tie_RI_reversed [] = (Return r2, db2')
       /\ r_scores r1 = r_scores r2
       /\ r_top_types r1 = r_top_types r2
       /\ r_careers r1 = r_careers r2
       /\ r_summary r1 = r_summary r2.
Proof.
  split; [reflexivity|]. split; [apply Permutation_rev|].
  apply assess_order_independent; [reflexivity | apply Permutation_rev].
Defined.

Lemma assess_ignores_B_answers_witness :
  valid_request request_tie_RI
  /\ exists r db' r' db'',
       assess store_down request_tie_RI tt = (Return r, db')
       /\ assess store_down (only_A request_tie_RI) tt = (Return r', db'')
       /\ r_scores r = r_scores r'
       /\ r_top_types r = r_top_types r'
       /\ r_careers r = r_careers r'
       /\ r_summary r = r_summary r'.
Proof.
  split; [reflexivity|].
  apply assess_ignores_B_answers. reflexivity.
Defined.

Lemma assess_persists_what_it_returns_witness :
  valid_request request_tie_RI
  /\ exists doc r,
       assess store_in_memory request_tie_RI [] = (Return r, [doc])
       /\ doc_name doc = Some "Ada"
       /\ doc_scores doc = r_scores r
       /\ doc_top_types doc = r_top_types r
       /\ r_id r = Some "0".
Proof.
  split; [reflexivity|].
  destruct (assess_persists_what_it_returns
              store_in_memory request_tie_RI [] eq_refl)
    as (doc & r & R & Nm & _ & Sc & Tt & _ & _ & Id).
  exists doc, r. repeat split; assumption.
Defined.

Lemma assess_distinct_questions_bounds_witness :
  valid_request request_R_only
  /\ NoDup (map question_id (answers request_R_only))
  /\ exists r db',
       assess store_down request_R_only tt = (Return r, db')
       /\ (List.length (answers request_R_only) <= 12)%nat
       /\ Forall (fun v => 0 <= v <= 2) (PyDict.values (r_scores r))
       /\ sum (PyDict.values (r_scores r)) <= 12.
Proof.
  assert (N : NoDup (map question_id (answers request_R_only))).
  { cbn. repeat (constructor; [simpl; lia|]). constructor. }
  split; [reflexivity|]. split; [exact N|].
  apply assess_distinct_questions_bounds; [reflexivity | exact N].
Defined.

Lemma assess_three_careers_per_top_type_witness :
  valid_request request_tie_RI
  /\ exists r db',
       assess store_down request_tie_RI tt = (Return r, db')
       /\ r_careers r
          = flat_map (fun t => firstn 3 (PyDict.get_default t [] CAREER_MAP))
                     (r_top_types r)
       /\ List.length (r_careers r) = (3 * List.length (r_top_types r))%nat.
Proof.
  split; [reflexivity|].
  apply assess_three_careers_per_top_type. reflexivity.
Defined.

Lemma assess_without_A_answers_witness :
  valid_request request_all_B
  /\ exists r db',
       assess store_down request_all_B tt = (Return r, db')
       /\ r_scores r
          = [("R", 0); ("I", 0); ("A", 0); ("S", 0); ("E", 0); ("C", 0)]
       /\ r_top_types r = ["R"].
Proof.
  split; [reflexivity|].
  destruct (assess_without_A_answers store_down request_all_B tt eq_refl)
    as (r & db' & R & Sc & Tt & _).
  - intros a Ia. cbn in Ia.
    repeat (destruct Ia as [<- | Ia]; [reflexivity|]). contradiction.
  - exists r, db'. repeat split; assumption.
Defined.

Lemma assess_top_types_have_max_score_witness :
  valid_request request_tie_RI
  /\ exists r db',
       assess store_down request_tie_RI tt = (Return r, db')
       /\ (forall t c, In t (r_top_types r) -> In c RIASEC ->
             score_of (r_scores r) c <= score_of (r_scores r) t)
       /\ (forall t1 t2, In t1 (r_top_types r) -> In t2 (r_top_types r) ->
             score_of (r_scores r) t1 = score_of (r_scores r) t2).
Proof.
  split; [reflexivity|].
  apply assess_top_types_have_max_score. reflexivity.
Defined.

Lemma assess_unique_maximum_single_top_type_witness :
  valid_request request_R_only
  /\ exists r db',
       assess store_down request_R_only tt = (Return r, db')
       /\ r_top_types r = ["R"].
Proof.
  split; [reflexivity|].
  destruct (assess_unique_maximum_single_top_type
              store_down request_R_only tt eq_refl) as (r & db' & R & U).
  exists r, db'. split; [exact R|].
  apply U; [now left|]. vm_compute in R. injection R as <- <-.
  intros c Ic Ne. cbn in Ic.
  repeat (destruct Ic as [<- | Ic];
          [first [reflexivity | exfalso; now apply Ne]|]).
  contradiction.
Defined.

Lemma assess_accepts_iff_in_range_witness :
  (forall a, In a (answers request_R_only) ->
     1 <= question_id a <= 12 /\ (choice a = "A" \/ choice a = "B"))
  /\ exists r db', assess store_down request_R_only tt = (Return r, db').
Proof.
  assert (A : forall a, In a (answers request_R_only) ->
                1 <= question_id a <= 12
                /\ (choice a = "A" \/ choice a = "B")).
  { intros a Ia. cbn in Ia.
    repeat (destruct Ia as [<- | Ia]; [cbn; split; [lia | auto]|]).
    contradiction. }
  split; [exact A|].
  exact (proj2 (assess_accepts_iff_in_range store_down request_R_only tt) A).
Defined.

Lemma assess_accepts_listed_questions_witness :
  (forall i, pick_first_four i = "A" \/ pick_first_four i = "B")
  /\ exists r db',
       assess store_down
         (mkAssessmentRequest None None
            (answer_all pick_first_four get_questions)) tt
       = (Return r, db')
       /\ score_of (r_scores r) "R" = 2
       /\ score_of (r_scores r) "C" = 0.
Proof.
  assert (P : forall i, pick_first_four i = "A" \/ pick_first_four i = "B").
  { intros i. unfold pick_first_four. destruct (i <=? 4); auto. }
  split; [exact P|].
  destruct (assess_accepts_listed_questions
              store_down pick_first_four None None tt P) as (r & db' & R & S).
  exists r, db'. split; [exact R|]. split.
  - rewrite (S "R"); [reflexivity | now left].
  - rewrite (S "C"); [reflexivity | cbn; tauto].
Defined.


Lemma test_database_renders_listing_failure_witness :
  name_readable db_unreachable
  /\ list_collection_names db_unreachable
     = Raise (Exception_ "connection refused")
  /\ exists resp,
       test_database message_of (Some db_unreachable) (fun _ => None)
       = Return resp
       /\ field "database" resp
          = Some (PStr "⚠️  Connected but Error: connection refused").
Proof.
  assert (Rd : name_readable db_unreachable) by (intros e; discriminate).
  split; [exact Rd|]. split; [reflexivity|].
  destruct (test_database_renders_listing_failure
              message_of db_unreachable (Exception_ "connection refused")
              (fun _ => None) Rd eq_refl)
    as (resp & text & R & D & _ & _ & All & _).
  exists resp. split; [exact R|].
  rewrite D, All; [reflexivity | vm_compute; lia].
Defined.

